(** * tinder-go-claude: the in-memory store, the feed service and the swipe service

    A shallow embedding of [internal/models], [internal/store] and
    [internal/services], followed by the properties of feed generation,
    swipe processing and match detection.

    Conventions of the embedding:
    - [uuid.UUID] (a 16-byte array, compared only by equality and printed
      with its [String] method) is the number whose big-endian bytes it
      holds;
    - [time.Time] is a number of nanoseconds; every [time.Now().UTC()] of
      the source is an explicit argument;
    - a Go method on [*InMemoryStore] that writes returns the new store,
      one that reads takes the store as an argument; the mutex makes each
      method atomic, so calls are modelled one after the other;
    - a nil slice and an empty slice are both the empty list. *)

From stdpp Require Import gmap strings list fin_maps.
From Stdlib Require Import ZArith NArith Ascii String.

Local Open Scope string_scope.
Local Open Scope list_scope.

(** ** internal/models *)

Abbreviation UUID := N (only parsing).
Abbreviation Time := Z (only parsing).

(** [type SwipeAction string]: any string can be converted to it, two
    values are recognised. *)
Abbreviation SwipeAction := string (only parsing).

Definition SwipeActionLike : SwipeAction := "LIKE".
Definition SwipeActionPass : SwipeAction := "PASS".

Definition IsValid (s : SwipeAction) : bool :=
  bool_decide (s = SwipeActionLike) || bool_decide (s = SwipeActionPass).

Record User := mkUser {
  ID : UUID;
  Name : string;
  Age : Z;
  Gender : string;
  ZoneID : string
}.

Record Swipe := mkSwipe {
  SwiperID : UUID;
  SwipedID : UUID;
  Action : SwipeAction;
  SwipeTimestamp : Time
}.

Record Match := mkMatch {
  User1ID : UUID;
  User2ID : UUID;
  MatchTimestamp : Time
}.

#[global] Instance User_eq_dec : EqDecision User.
Proof. solve_decision. Defined.
#[global] Instance Swipe_eq_dec : EqDecision Swipe.
Proof. solve_decision. Defined.
#[global] Instance Match_eq_dec : EqDecision Match.
Proof. solve_decision. Defined.

(** ** github.com/google/uuid: [UUID.String]

    The canonical text form, lower-case hexadecimal in groups of
    8-4-4-4-12 digits, used by [fmt.Sprintf] with the verb [%s]. *)

Definition hexdigit (n : N) : ascii :=
  match n with
  | 0 => "0" | 1 => "1" | 2 => "2" | 3 => "3" | 4 => "4" | 5 => "5"
  | 6 => "6" | 7 => "7" | 8 => "8" | 9 => "9" | 10 => "a" | 11 => "b"
  | 12 => "c" | 13 => "d" | 14 => "e" | _ => "f"
  end%N%char.

Definition hexbyte (b : N) : string :=
  String (hexdigit (b / 16)) (String (hexdigit (b mod 16)) "").

(** Byte [i] (0 is the first) of the 16-byte array. *)
Definition uuid_byte (u : UUID) (i : N) : N := ((u / 256 ^ (15 - i)) mod 256)%N.

Definition hexbytes (u : UUID) (idx : list N) : string :=
  foldr (λ i acc, hexbyte (uuid_byte u i) +:+ acc) "" idx.

Definition UUID_String (u : UUID) : string :=
  hexbytes u [0; 1; 2; 3]%N +:+ "-" +:+ hexbytes u [4; 5]%N +:+ "-" +:+
  hexbytes u [6; 7]%N +:+ "-" +:+ hexbytes u [8; 9]%N +:+ "-" +:+
  hexbytes u [10; 11; 12; 13; 14; 15]%N.

(** ** internal/store *)

Record InMemoryStore := mkStore {
  users : gmap N User;
  swipes : list Swipe;
  matches : list Match
}.

(** The value of [defaultStore] at start-up. *)
Definition defaultStore : InMemoryStore :=
  {| users := ∅; swipes := []; matches := [] |}.

Definition AddUser (s : InMemoryStore) (user : User) : InMemoryStore :=
  {| users := <[ID user := user]> (users s);
     swipes := swipes s;
     matches := matches s |}.

(** The comma-ok pair [(user, exists)] is an option. *)
Definition GetUser (s : InMemoryStore) (id : UUID) : option User :=
  users s !! id.

(** Go ranges over a map in an unspecified order; the list below is one
    order, and the properties of the feed are stated on membership. *)
Definition GetAllUsers (s : InMemoryStore) : list User :=
  (map_to_list (users s)).*2.

Definition AddSwipe (s : InMemoryStore) (swipe : Swipe) : InMemoryStore :=
  {| users := users s;
     swipes := swipes s ++ [swipe];
     matches := matches s |}.

Definition GetSwipesByUser (s : InMemoryStore) (userID : UUID) : list Swipe :=
  filter (λ swipe, SwiperID swipe = userID) (swipes s).

(** The first entry of the log, in append order, for the ordered pair. *)
Fixpoint find_swipe (l : list Swipe) (swiperID swipedID : UUID) : option Swipe :=
  match l with
  | [] => None
  | swipe :: rest =>
      if bool_decide (SwiperID swipe = swiperID) && bool_decide (SwipedID swipe = swipedID)
      then Some swipe
      else find_swipe rest swiperID swipedID
  end.

Definition FindSwipe (s : InMemoryStore) (swiperID swipedID : UUID) : option Swipe :=
  find_swipe (swipes s) swiperID swipedID.

Definition AddMatch (s : InMemoryStore) (m : Match) : InMemoryStore :=
  {| users := users s;
     swipes := swipes s;
     matches := matches s ++ [m] |}.

Definition GetMatchesForUser (s : InMemoryStore) (userID : UUID) : list Match :=
  filter (λ m, User1ID m = userID ∨ User2ID m = userID) (matches s).

Definition Reset (s : InMemoryStore) : InMemoryStore :=
  {| users := ∅; swipes := []; matches := [] |}.

(** ** internal/services: errors *)

(** The dynamic types an [error] of the services can have: the plain error
    built by [fmt.Errorf] (an [*errors.errorString]), [*NotFoundError] and
    [*ValidationError]. *)
Inductive error :=
| ErrorString (s : string)
| NotFoundError (Message : string)
| ValidationError (Message : string).

(** The [Error() string] method. *)
Definition Error (e : error) : string :=
  match e with
  | ErrorString s => s
  | NotFoundError Message => Message
  | ValidationError Message => Message
  end.

(** [errors.As(err, &notFoundErr)] and [errors.As(err, &validationErr)]. *)
Definition asNotFoundError (e : error) : bool :=
  match e with NotFoundError _ => true | _ => false end.

Definition asValidationError (e : error) : bool :=
  match e with ValidationError _ => true | _ => false end.

(** A Go result pair [(value, error)] in which exactly one side is set. *)
Inductive result (A : Type) :=
| Ok (a : A)
| Err (e : error).
Arguments Ok {A} a.
Arguments Err {A} e.

(** ** internal/services: FeedService *)

(** The loop that fills [seenSet]. *)
Definition build_seenSet (l : list Swipe) : gset N :=
  foldl (λ seenSet swipe, {[SwipedID swipe]} ∪ seenSet) ∅ l.

(** The filter loop of [GetFeed]: each [continue] skips the candidate,
    the last line appends it to [feed]. *)
Fixpoint feed_loop (requestingUser : User) (userID : UUID) (seenSet : gset N)
    (allUsers : list User) (feed : list User) : list User :=
  match allUsers with
  | [] => feed
  | candidate :: rest =>
      if bool_decide (ZoneID candidate ≠ ZoneID requestingUser)
      then feed_loop requestingUser userID seenSet rest feed
      else if bool_decide (ID candidate = userID)
      then feed_loop requestingUser userID seenSet rest feed
      else if bool_decide (ID candidate ∈ seenSet)
      then feed_loop requestingUser userID seenSet rest feed
      else feed_loop requestingUser userID seenSet rest (feed ++ [candidate])
  end.

(** The final [if feed == nil] only swaps a nil slice for an empty one. *)
Definition GetFeed (s : InMemoryStore) (userID : UUID) : result (list User) :=
  match GetUser s userID with
  | None => Err (ErrorString ("user " +:+ UUID_String userID +:+ " not found"))
  | Some requestingUser =>
      let allUsers := GetAllUsers s in
      let swipes := GetSwipesByUser s userID in
      let seenSet := build_seenSet swipes in
      Ok (feed_loop requestingUser userID seenSet allUsers [])
  end.

(** ** internal/services: SwipeService *)

Record ProcessSwipeResult := mkResult {
  ResSwipe : Swipe;
  Matched : bool;
  ResMatch : option Match
}.

(** [tSwipe] and [tMatch] are the two readings of the clock. The store
    that is returned is the store after the call. *)
Definition ProcessSwipe (s : InMemoryStore) (swiperID swipedID : UUID)
    (action : SwipeAction) (tSwipe tMatch : Time)
    : InMemoryStore * result ProcessSwipeResult :=
  if bool_decide (swiperID = swipedID) then
    (s, Err (ValidationError "cannot swipe on yourself"))
  else match GetUser s swiperID with
  | None =>
      (s, Err (NotFoundError ("swiper user " +:+ UUID_String swiperID +:+ " not found")))
  | Some _ =>
  match GetUser s swipedID with
  | None =>
      (s, Err (NotFoundError ("swiped user " +:+ UUID_String swipedID +:+ " not found")))
  | Some _ =>
      let swipe := {| SwiperID := swiperID; SwipedID := swipedID;
                      Action := action; SwipeTimestamp := tSwipe |} in
      let s1 := AddSwipe s swipe in
      let unmatched := {| ResSwipe := swipe; Matched := false; ResMatch := None |} in
      if bool_decide (action = SwipeActionLike) then
        match FindSwipe s1 swipedID swiperID with
        | Some reverseSwipe =>
            if bool_decide (Action reverseSwipe = SwipeActionLike) then
              let m := {| User1ID := swiperID; User2ID := swipedID;
                          MatchTimestamp := tMatch |} in
              (AddMatch s1 m,
               Ok {| ResSwipe := swipe; Matched := true; ResMatch := Some m |})
            else (s1, Ok unmatched)
        | None => (s1, Ok unmatched)
        end
      else (s1, Ok unmatched)
  end
  end.

(** ** internal/handlers: the status chosen for an error *)

(** The [switch] of [CreateSwipe] on the error of [ProcessSwipe]. *)
Definition CreateSwipe_status (e : error) : Z :=
  if asNotFoundError e then 404
  else if asValidationError e then 400
  else 500.

(** ** Histories of core operations *)

Inductive op :=
| OpAddUser (user : User)
| OpProcessSwipe (swiperID swipedID : UUID) (action : SwipeAction) (tSwipe tMatch : Time)
| OpGetFeed (userID : UUID)
| OpMatchesForUser (userID : UUID)
| OpReset.

(** The store after one operation; the two reads leave it as it is. *)
Definition step (s : InMemoryStore) (o : op) : InMemoryStore :=
  match o with
  | OpAddUser user => AddUser s user
  | OpProcessSwipe swiperID swipedID action tSwipe tMatch =>
      (ProcessSwipe s swiperID swipedID action tSwipe tMatch).1
  | OpGetFeed _ => s
  | OpMatchesForUser _ => s
  | OpReset => Reset s
  end.

Definition run (s : InMemoryStore) (ops : list op) : InMemoryStore :=
  foldl step s ops.

Definition is_reset (o : op) : bool :=
  match o with OpReset => true | _ => false end.

Definition is_add_user (o : op) : bool :=
  match o with OpAddUser _ => true | _ => false end.

(** The states of the running service. *)
Definition reachable (s : InMemoryStore) : Prop :=
  ∃ ops, s = run defaultStore ops.

(** [AddUser] is the only write to [users], under the key [user.ID]. *)
Definition store_wf (s : InMemoryStore) : Prop :=
  ∀ k v, users s !! k = Some v → ID v = k.

(** ** Vocabulary of the statements *)

(** [v] is one of the stored users. *)
Definition stored (s : InMemoryStore) (v : User) : Prop :=
  ∃ k, users s !! k = Some v.

(** The log holds a swipe from [a] to [b], whatever its action. *)
Definition swiped_on (s : InMemoryStore) (a b : UUID) : Prop :=
  ∃ sw, sw ∈ swipes s ∧ SwiperID sw = a ∧ SwipedID sw = b.

(** The log holds a LIKE from [a] to [b]. *)
Definition liked (s : InMemoryStore) (a b : UUID) : Prop :=
  ∃ sw, sw ∈ swipes s ∧ SwiperID sw = a ∧ SwipedID sw = b ∧
        Action sw = SwipeActionLike.

(** The three filters of the feed, for requester [ru] with identifier [u]. *)
Definition passes (ru : User) (u : UUID) (seenSet : gset N) (c : User) : Prop :=
  ZoneID c = ZoneID ru ∧ ID c ≠ u ∧ ID c ∉ seenSet.

#[global] Instance passes_dec ru u seenSet c : Decision (passes ru u seenSet c).
Proof. unfold passes. apply _. Defined.

(** [sw] is a swipe of the ordered pair [(a, b)]. *)
Definition of_pair (a b : UUID) (sw : Swipe) : Prop :=
  SwiperID sw = a ∧ SwipedID sw = b.

(** The earliest swipe from [a] to [b] in the log, in append order, is a
    LIKE; what follows it in the log does not count. *)
Definition first_swipe_is_like (s : InMemoryStore) (a b : UUID) : Prop :=
  ∃ pre rev post, swipes s = pre ++ rev :: post ∧ of_pair a b rev ∧
                  (∀ x, x ∈ pre → ¬ of_pair a b x) ∧
                  Action rev = SwipeActionLike.

(** The same test as [ProcessSwipe] evaluates it. *)
Definition first_swipe_is_likeb (s : InMemoryStore) (a b : UUID) : bool :=
  match FindSwipe s a b with
  | Some rev => bool_decide (Action rev = SwipeActionLike)
  | None => false
  end.

(** Every match has its two LIKE swipes in the log and its two users in the
    user map. *)
Definition match_backed (s : InMemoryStore) (m : Match) : Prop :=
  liked s (User1ID m) (User2ID m) ∧ liked s (User2ID m) (User1ID m) ∧
  is_Some (users s !! User1ID m) ∧ is_Some (users s !! User2ID m).

Definition matches_backed (s : InMemoryStore) : Prop :=
  ∀ m, m ∈ matches s → match_backed s m.

Definition no_reset (ops : list op) : Prop := Forall (λ o, is_reset o = false) ops.
Definition no_add_user (ops : list op) : Prop := Forall (λ o, is_add_user o = false) ops.

(** The operation registers a user under the identifier [id]. *)
Definition registers (id : UUID) (o : op) : bool :=
  match o with
  | OpAddUser user => bool_decide (ID user = id)
  | _ => false
  end.

(** No operation of the history registers a user under [id]. *)
Definition never_registers (id : UUID) (ops : list op) : Prop :=
  Forall (λ o, registers id o = false) ops.

(** Two match records are of the same unordered pair of users. *)
Definition same_pair (m1 m2 : Match) : Prop :=
  (User1ID m1 = User1ID m2 ∧ User2ID m1 = User2ID m2) ∨
  (User1ID m1 = User2ID m2 ∧ User2ID m1 = User1ID m2).

(** ** Sample data *)

Definition alice : User :=
  {| ID := 1; Name := "Alice"; Age := 25; Gender := "other"; ZoneID := "zone-x" |}.
Definition bob : User :=
  {| ID := 2; Name := "Bob"; Age := 25; Gender := "other"; ZoneID := "zone-x" |}.
Definition carol : User :=
  {| ID := 3; Name := "Carol"; Age := 25; Gender := "other"; ZoneID := "zone-y" |}.

Definition three_users : InMemoryStore :=
  run defaultStore [OpAddUser alice; OpAddUser bob; OpAddUser carol].

(** A history in which Bob passes on Alice and then likes her. *)
Definition pass_then_like : InMemoryStore :=
  run defaultStore [OpAddUser alice; OpAddUser bob;
                    OpProcessSwipe 2 1 SwipeActionPass 10 11;
                    OpProcessSwipe 2 1 SwipeActionLike 20 21].

(** A history in which Bob likes Alice and then passes on her. *)
Definition like_then_pass : InMemoryStore :=
  run defaultStore [OpAddUser alice; OpAddUser bob;
                    OpProcessSwipe 2 1 SwipeActionLike 10 11;
                    OpProcessSwipe 2 1 SwipeActionPass 20 21].

(** A history in which Alice and Bob like each other. *)
Definition mutual_like : InMemoryStore :=
  run defaultStore [OpAddUser alice; OpAddUser bob;
                    OpProcessSwipe 1 2 SwipeActionLike 10 11;
                    OpProcessSwipe 2 1 SwipeActionLike 20 21].

(** A history in which Alice and Bob like each other and Alice then likes
    Bob once more. *)
Definition like_twice : list op :=
  [OpAddUser alice; OpAddUser bob;
   OpProcessSwipe 1 2 SwipeActionLike 10 11;
   OpProcessSwipe 2 1 SwipeActionLike 20 21;
   OpProcessSwipe 1 2 SwipeActionLike 30 31].

(** ** internal/models: requests and the response envelope *)

(** [uuid.Parse] of github.com/google/uuid is a parameter [Parse] of what
    follows: the identifier it returns and whether its error is nil. *)

Module CreateUserRequest.
Record t := mk {
  Name : string;
  Age : Z;
  Gender : string;
  ZoneID : string
}.

(** Every failed check appends its message; nothing stops at the first. *)
Definition Validate (r : t) : list string :=
  let errs := [] in
  let errs := if bool_decide (Name r = "") then errs ++ ["name is required"] else errs in
  let errs := if bool_decide (Age r ≤ 0)%Z
              then errs ++ ["age must be a positive integer"] else errs in
  let errs := if bool_decide (Gender r = "") then errs ++ ["gender is required"] else errs in
  let errs := if bool_decide (ZoneID r = "") then errs ++ ["zone_id is required"] else errs in
  errs.
End CreateUserRequest.

Module CreateSwipeRequest.
Record t := mk {
  SwiperID : string;
  SwipedID : string;
  Action : string
}.

(** The four results [(swiperID, swipedID, action, errs)]. *)
Definition Validate (Parse : string → N * bool) (r : t) : N * N * string * list string :=
  let errs := [] in
  let '(swiperID, ok) := Parse (SwiperID r) in
  let errs := if ok then errs else errs ++ ["swiper_id must be a valid UUID"] in
  let '(swipedID, ok) := Parse (SwipedID r) in
  let errs := if ok then errs else errs ++ ["swiped_id must be a valid UUID"] in
  let action := Action r in
  let errs := if IsValid action then errs else errs ++ ["action must be LIKE or PASS"] in
  (swiperID, swipedID, action, errs).
End CreateSwipeRequest.

(** The values the handlers put in the [Data] field, of type [interface{}]:
    nil, a user, a feed, a list of matches, and the map of [CreateSwipe]
    with its keys [swipe], [matched] and, when present, [match]. *)
Inductive payload :=
| DataNil
| DataUser (user : User)
| DataFeed (feed : list User)
| DataMatches (l : list Match)
| DataSwipe (swipe : Swipe) (matched : bool) (m : option Match).

Record APIError := mkAPIError { Message : string }.

(** [Meta] holds the one kind of entry the handlers write, an integer
    count. *)
Record APIResponse := mkAPIResponse {
  Data : payload;
  Meta : gmap string Z;
  Errors : list APIError
}.

(** A nil [meta] is [None]. *)
Definition NewSuccessResponse (data : payload) (meta : option (gmap string Z)) : APIResponse :=
  let meta := match meta with None => ∅ | Some m => m end in
  {| Data := data; Meta := meta; Errors := [] |}.

Definition NewErrorResponse (messages : list string) : APIResponse :=
  let errors := foldl (λ errors msg, errors ++ [mkAPIError msg]) [] messages in
  {| Data := DataNil; Meta := ∅; Errors := errors |}.

(** ** internal/handlers *)

(** What a handler writes: the status code and the envelope that
    [writeJSON] encodes. The handlers take what they read from the request:
    the decoded body ([None] when [Decode] fails), the query parameter or
    the path value. [uuid.New()] is an explicit argument. *)
Record response := mkResponse {
  status : Z;
  body : APIResponse
}.

Definition StatusOK : Z := 200.
Definition StatusCreated : Z := 201.
Definition StatusBadRequest : Z := 400.
Definition StatusNotFound : Z := 404.
Definition StatusUnprocessableEntity : Z := 422.
Definition StatusInternalServerError : Z := 500.

Definition writeSuccess (status : Z) (data : payload) (meta : option (gmap string Z))
    : response :=
  {| status := status; body := NewSuccessResponse data meta |}.

Definition writeError (status : Z) (messages : list string) : response :=
  {| status := status; body := NewErrorResponse messages |}.

Definition count_meta (n : nat) : option (gmap string Z) :=
  Some {["count" := Z.of_nat n]}.

Section handlers.
Variable Parse : string → N * bool.

Definition UserHandler_CreateUser (s : InMemoryStore)
    (decoded : option CreateUserRequest.t) (newID : UUID) : InMemoryStore * response :=
  match decoded with
  | None => (s, writeError StatusUnprocessableEntity ["invalid JSON in request body"])
  | Some req =>
      let errs := CreateUserRequest.Validate req in
      if bool_decide (0 < List.length errs)
      then (s, writeError StatusUnprocessableEntity errs)
      else
        let user := {| ID := newID;
                       Name := CreateUserRequest.Name req;
                       Age := CreateUserRequest.Age req;
                       Gender := CreateUserRequest.Gender req;
                       ZoneID := CreateUserRequest.ZoneID req |} in
        (AddUser s user, writeSuccess StatusCreated (DataUser user) None)
  end.

Definition UserHandler_GetUser (s : InMemoryStore) (idStr : string) : response :=
  let '(userID, ok) := Parse idStr in
  if negb ok then writeError StatusNotFound ["user not found"]
  else match GetUser s userID with
       | None => writeError StatusNotFound ["user not found"]
       | Some user => writeSuccess StatusOK (DataUser user) None
       end.

Definition FeedHandler_GetFeed (s : InMemoryStore) (userIDStr : string) : response :=
  if bool_decide (userIDStr = "")
  then writeError StatusUnprocessableEntity ["user_id query parameter is required"]
  else
    let '(userID, ok) := Parse userIDStr in
    if negb ok
    then writeError StatusUnprocessableEntity ["user_id must be a valid UUID"]
    else match GetFeed s userID with
         | Err err => writeError StatusNotFound [Error err]
         | Ok feed => writeSuccess StatusOK (DataFeed feed) (count_meta (List.length feed))
         end.

Definition SwipeHandler_CreateSwipe (s : InMemoryStore)
    (decoded : option CreateSwipeRequest.t) (tSwipe tMatch : Time)
    : InMemoryStore * response :=
  match decoded with
  | None => (s, writeError StatusUnprocessableEntity ["invalid JSON in request body"])
  | Some req =>
      let '(swiperID, swipedID, action, errs) := CreateSwipeRequest.Validate Parse req in
      if bool_decide (0 < List.length errs)
      then (s, writeError StatusUnprocessableEntity errs)
      else
        match ProcessSwipe s swiperID swipedID action tSwipe tMatch with
        | (s', Err err) =>
            if asNotFoundError err then (s', writeError StatusNotFound [Error err])
            else if asValidationError err
            then (s', writeError StatusBadRequest [Error err])
            else (s', writeError StatusInternalServerError ["internal server error"])
        | (s', Ok result) =>
            (s', writeSuccess StatusCreated
                   (DataSwipe (ResSwipe result) (Matched result) (ResMatch result)) None)
        end
  end.

Definition SwipeHandler_GetMatches (s : InMemoryStore) (userIDStr : string) : response :=
  if bool_decide (userIDStr = "")
  then writeError StatusUnprocessableEntity ["user_id query parameter is required"]
  else
    let '(userID, ok) := Parse userIDStr in
    if negb ok
    then writeError StatusUnprocessableEntity ["user_id must be a valid UUID"]
    else match GetUser s userID with
         | None => writeError StatusNotFound ["user not found"]
         | Some _ =>
             let matches := GetMatchesForUser s userID in
             writeSuccess StatusOK (DataMatches matches) (count_meta (List.length matches))
         end.
End handlers.

(** A parser for the examples: it knows the text of the identifiers 1, 2
    and 3. *)
Definition sample_Parse (str : string) : N * bool :=
  if bool_decide (str = UUID_String 1) then (1%N, true)
  else if bool_decide (str = UUID_String 2) then (2%N, true)
  else if bool_decide (str = UUID_String 3) then (3%N, true)
  else (0%N, false).

(** ** Vocabulary of the further properties *)

(** [GetFeed] with the order in which its call of [GetAllUsers] ranged over
    the user map given as [allUsers]. *)
Definition GetFeed_from (s : InMemoryStore) (userID : UUID) (allUsers : list User)
    : result (list User) :=
  match GetUser s userID with
  | None => Err (ErrorString ("user " +:+ UUID_String userID +:+ " not found"))
  | Some requestingUser =>
      let swipes := GetSwipesByUser s userID in
      let seenSet := build_seenSet swipes in
      Ok (feed_loop requestingUser userID seenSet allUsers [])
  end.

(** What a call of [GetFeed] can return: its result for some order of the
    stored users, which Go chooses anew at every call. *)
Definition GetFeed_may_return (s : InMemoryStore) (userID : UUID)
    (res : result (list User)) : Prop :=
  ∃ allUsers, allUsers ≡ₚ GetAllUsers s ∧ res = GetFeed_from s userID allUsers.

(** Two results of [GetFeed] that differ at most in the order of the
    feed. *)
Definition same_feed (res res' : result (list User)) : Prop :=
  match res, res' with
  | Ok feed, Ok feed' => feed ≡ₚ feed'
  | Err e, Err e' => e = e'
  | _, _ => False
  end.

(** A swipe whose two users are different and registered. *)
Definition swipe_valid (s : InMemoryStore) (sw : Swipe) : Prop :=
  SwiperID sw ≠ SwipedID sw ∧
  is_Some (users s !! SwiperID sw) ∧ is_Some (users s !! SwipedID sw).

(** The match log has a record of the unordered pair of [a] and [b]. *)
Definition matched_pair (s : InMemoryStore) (a b : UUID) : Prop :=
  ∃ m, m ∈ matches s ∧
       ((User1ID m = a ∧ User2ID m = b) ∨ (User1ID m = b ∧ User2ID m = a)).

(** The two shapes of an envelope: a success has a status below 400, data
    and no error; a failure has a status of 400 or more, at least one
    error, nil data and empty metadata. *)
Definition envelope_ok (r : response) : Prop :=
  ((status r < 400)%Z ∧ Errors (body r) = [] ∧ Data (body r) ≠ DataNil) ∨
  ((400 ≤ status r)%Z ∧ Errors (body r) ≠ [] ∧ Data (body r) = DataNil ∧
   Meta (body r) = ∅).

(** * Lemmas *)

Example UUID_String_alice :
  UUID_String 1 = "00000000-0000-0000-0000-000000000001".
Proof. reflexivity. Qed.

Example GetFeed_alice : GetFeed three_users 1 = Ok [bob].
Proof. vm_compute. reflexivity. Qed.

(** Alice likes Bob: he leaves her feed and there is no match yet. *)
Example GetFeed_alice_after_like :
  let s1 := ProcessSwipe three_users 1 2 SwipeActionLike 10 11 in
  GetFeed s1.1 1 = Ok [] ∧
  s1.2 = Ok (mkResult (mkSwipe 1 2 SwipeActionLike 10) false None).
Proof. vm_compute. split; reflexivity. Qed.

(** Bob likes her back: the call is matched and both see the one match. *)
Example mutual_like_matches :
  ProcessSwipe (ProcessSwipe three_users 1 2 SwipeActionLike 10 11).1
               2 1 SwipeActionLike 20 21 =
  (run three_users [OpProcessSwipe 1 2 SwipeActionLike 10 11;
                    OpProcessSwipe 2 1 SwipeActionLike 20 21],
   Ok (mkResult (mkSwipe 2 1 SwipeActionLike 20) true (Some (mkMatch 2 1 21)))) ∧
  GetMatchesForUser mutual_like 1 = [mkMatch 2 1 21] ∧
  GetMatchesForUser mutual_like 2 = [mkMatch 2 1 21] ∧
  GetMatchesForUser mutual_like 3 = [].
Proof. vm_compute. split_and!; reflexivity. Qed.

(** A PASS counts as seen, and a reverse PASS gives no match. *)
Example pass_is_seen_and_unmatched :
  GetFeed (ProcessSwipe three_users 1 2 SwipeActionPass 10 11).1 1 = Ok [] ∧
  (ProcessSwipe pass_then_like 1 2 SwipeActionLike 30 31).2 =
  Ok (mkResult (mkSwipe 1 2 SwipeActionLike 30) false None).
Proof. vm_compute. split; reflexivity. Qed.

(** ** The store and the feed loop *)

Section feed_lemmas.
Implicit Types (s : InMemoryStore) (l : list Swipe) (v ru : User).

Lemma elem_of_foldl_seen l (acc : gset N) x :
  x ∈ foldl (λ seenSet swipe, {[SwipedID swipe]} ∪ seenSet) acc l ↔
  x ∈ acc ∨ ∃ sw, sw ∈ l ∧ SwipedID sw = x.
Proof.
  revert acc. induction l as [|sw l IH]; intros acc; simpl.
  - split; [auto|]. intros [H|(sw & H & _)]; [done|]. by apply elem_of_nil in H.
  - rewrite IH. split.
    + intros [H|(sw' & Hin & Heq)].
      * apply elem_of_union in H as [H|H]; [|by left].
        apply elem_of_singleton in H. right. exists sw. split; [left|done].
      * right. exists sw'. split; [by right|done].
    + intros [H|(sw' & Hin & Heq)].
      * left. apply elem_of_union. by right.
      * apply elem_of_cons in Hin as [->|Hin].
        -- left. apply elem_of_union. left. by apply elem_of_singleton.
        -- right. eauto.
Qed.

Lemma elem_of_build_seenSet l x :
  x ∈ build_seenSet l ↔ ∃ sw, sw ∈ l ∧ SwipedID sw = x.
Proof.
  unfold build_seenSet. rewrite elem_of_foldl_seen. split; [|auto].
  intros [H|H]; [|done]. by apply not_elem_of_empty in H.
Qed.

Lemma elem_of_seenSet s u x :
  x ∈ build_seenSet (GetSwipesByUser s u) ↔ swiped_on s u x.
Proof.
  rewrite elem_of_build_seenSet. unfold GetSwipesByUser, swiped_on.
  split; intros (sw & H & Hx).
  - apply list_elem_of_filter in H as [Hu Hin]. eauto.
  - destruct Hx as [Hu Hx]. exists sw. split; [|done].
    apply list_elem_of_filter. done.
Qed.

(** The loop is a filter that keeps what was already collected. *)
Lemma feed_loop_filter ru u seenSet (allUsers feed : list User) :
  feed_loop ru u seenSet allUsers feed =
  feed ++ filter (passes ru u seenSet) allUsers.
Proof.
  revert feed. induction allUsers as [|c rest IH]; intros feed; simpl.
  - by rewrite app_nil_r.
  - repeat case_bool_decide.
    + rewrite IH, filter_cons_False; [done|]. intros (? & _); done.
    + rewrite IH, filter_cons_False; [done|]. intros (_ & ? & _); done.
    + rewrite IH, filter_cons_False; [done|]. intros (_ & _ & ?); done.
    + rewrite IH, filter_cons_True, <- app_assoc; [done|].
      unfold passes. split_and!; [|done..].
      destruct (decide (ZoneID c = ZoneID ru)); [done|contradiction].
Qed.

Lemma elem_of_GetAllUsers s v : v ∈ GetAllUsers s ↔ stored s v.
Proof.
  unfold GetAllUsers, stored. rewrite list_elem_of_fmap. split.
  - intros ([k v'] & -> & Hin). exists k. by apply elem_of_map_to_list.
  - intros (k & Hk). exists (k, v). split; [done|]. by apply elem_of_map_to_list.
Qed.

Lemma NoDup_GetAllUsers s : store_wf s → NoDup (GetAllUsers s).
Proof.
  intros Hwf. unfold GetAllUsers. apply NoDup_fmap_2_strong.
  - intros [k1 v1] [k2 v2] H1 H2 Heq. simpl in Heq. subst v2.
    apply elem_of_map_to_list in H1, H2.
    apply Hwf in H1, H2. congruence.
  - apply NoDup_map_to_list.
Qed.
End feed_lemmas.

(** ** The swipe log and match detection *)

Section swipe_lemmas.
Implicit Types (s : InMemoryStore) (l pre post : list Swipe) (sw : Swipe).

Lemma find_swipe_cons sw l a b :
  find_swipe (sw :: l) a b =
  if decide (of_pair a b sw) then Some sw else find_swipe l a b.
Proof.
  simpl. unfold of_pair.
  destruct (decide (SwiperID sw = a ∧ SwipedID sw = b)) as [[H1 H2]|Hn].
  - by rewrite !bool_decide_eq_true_2.
  - destruct (decide (SwiperID sw = a)); destruct (decide (SwipedID sw = b));
      first [ exfalso; by apply Hn
            | rewrite ?(bool_decide_eq_false_2 (SwiperID sw = a)) by done;
              rewrite ?(bool_decide_eq_false_2 (SwipedID sw = b)) by done;
              rewrite ?andb_false_r; done ].
Qed.

Lemma find_swipe_app l l' a b :
  find_swipe (l ++ l') a b =
  match find_swipe l a b with
  | Some sw => Some sw
  | None => find_swipe l' a b
  end.
Proof.
  induction l as [|sw l IH]; [done|].
  rewrite <- app_comm_cons, !find_swipe_cons. by case_decide.
Qed.

Lemma find_swipe_None l a b :
  find_swipe l a b = None ↔ ∀ sw, sw ∈ l → ¬ of_pair a b sw.
Proof.
  induction l as [|sw l IH].
  - split; [|done]. intros _ sw H. by apply elem_of_nil in H.
  - rewrite find_swipe_cons. case_decide as Hd.
    + split; [done|]. intros H. exfalso. apply (H sw); [left|done].
    + rewrite IH. split.
      * intros H sw' [->|Hin]%elem_of_cons; [done|by apply H].
      * intros H sw' Hin. apply H. by right.
Qed.

(** [find_swipe] returns the first swipe of the pair in append order. *)
Lemma find_swipe_Some l a b sw :
  find_swipe l a b = Some sw ↔
  ∃ pre post, l = pre ++ sw :: post ∧ of_pair a b sw ∧
              ∀ x, x ∈ pre → ¬ of_pair a b x.
Proof.
  split.
  - induction l as [|x l IH]; [done|].
    rewrite find_swipe_cons. case_decide as Hd.
    + intros [= ->]. exists [], l. split_and!; [done..|].
      intros y Hy. by apply elem_of_nil in Hy.
    + intros H. destruct (IH H) as (pre & post & -> & Hp & Hpre).
      exists (x :: pre), post. split_and!; [done..|].
      intros y [->|Hy]%elem_of_cons; [done|by apply Hpre].
  - intros (pre & post & -> & Hp & Hpre).
    rewrite find_swipe_app.
    apply find_swipe_None in Hpre. rewrite Hpre.
    rewrite find_swipe_cons. by rewrite decide_True.
Qed.

Lemma find_swipe_Some_elem l a b sw :
  find_swipe l a b = Some sw → sw ∈ l ∧ of_pair a b sw.
Proof.
  intros (pre & post & -> & Hp & _)%find_swipe_Some. split; [|done].
  apply elem_of_app. right. left.
Qed.

Lemma first_swipe_is_likeb_true s a b :
  first_swipe_is_likeb s a b = true ↔ first_swipe_is_like s a b.
Proof.
  unfold first_swipe_is_likeb, first_swipe_is_like, FindSwipe.
  destruct (find_swipe (swipes s) a b) as [rev|] eqn:Hf.
  - rewrite bool_decide_eq_true. split.
    + intros Hact. apply find_swipe_Some in Hf as (pre & post & ? & ? & ?).
      exists pre, rev, post. done.
    + intros (pre & rev' & post & Hl & Hp & Hpre & Hact).
      assert (Hf' : find_swipe (swipes s) a b = Some rev').
      { apply find_swipe_Some. exists pre, post. done. }
      congruence.
  - split; [done|]. intros (pre & rev' & post & Hl & Hp & Hpre & Hact).
    assert (Hf' : find_swipe (swipes s) a b = Some rev').
    { apply find_swipe_Some. exists pre, post. done. }
    congruence.
Qed.

Lemma first_swipe_is_like_liked s a b : first_swipe_is_like s a b → liked s a b.
Proof.
  intros (pre & rev & post & Hl & [H1 H2] & _ & Hact).
  exists rev. split; [|done]. rewrite Hl. apply elem_of_app. right. left.
Qed.

(** Appending a swipe of another ordered pair does not change the lookup:
    the reverse lookup of [ProcessSwipe] sees the log as it was before the
    call. *)
Lemma FindSwipe_AddSwipe_ne s sw a b :
  ¬ of_pair a b sw → FindSwipe (AddSwipe s sw) a b = FindSwipe s a b.
Proof.
  intros Hn. unfold FindSwipe, AddSwipe. simpl.
  rewrite find_swipe_app. destruct (find_swipe (swipes s) a b); [done|].
  rewrite find_swipe_cons. by rewrite decide_False.
Qed.
End swipe_lemmas.

Section ProcessSwipe_lemmas.
Implicit Types (s : InMemoryStore) (A B : N) (action : string) (tSwipe tMatch : Z).

(** The outcome of a call that passes the three validation rules. *)
Lemma ProcessSwipe_valid s A B action tSwipe tMatch :
  A ≠ B → is_Some (users s !! A) → is_Some (users s !! B) →
  ProcessSwipe s A B action tSwipe tMatch =
  let swipe := mkSwipe A B action tSwipe in
  let m := mkMatch A B tMatch in
  if bool_decide (action = SwipeActionLike) && first_swipe_is_likeb s B A
  then (mkStore (users s) (swipes s ++ [swipe]) (matches s ++ [m]),
        Ok (mkResult swipe true (Some m)))
  else (mkStore (users s) (swipes s ++ [swipe]) (matches s),
        Ok (mkResult swipe false None)).
Proof.
  intros Hne [ua Hua] [ub Hub]. unfold ProcessSwipe, GetUser.
  rewrite bool_decide_eq_false_2 by done. rewrite Hua, Hub. cbv zeta.
  rewrite FindSwipe_AddSwipe_ne by (intros [H1 H2]; simpl in *; congruence).
  unfold first_swipe_is_likeb.
  case_bool_decide as Hact; [|done]. simpl.
  destruct (FindSwipe s B A) as [rev|]; [|done].
  by case_bool_decide.
Qed.

(** The calls that return an error, and what they return. *)
Lemma ProcessSwipe_invalid s A B action tSwipe tMatch :
  A = B ∨ users s !! A = None ∨ users s !! B = None →
  ∃ e, ProcessSwipe s A B action tSwipe tMatch = (s, Err e).
Proof.
  intros H. unfold ProcessSwipe, GetUser.
  case_bool_decide; [eauto|].
  destruct (users s !! A) eqn:HA; [|eauto].
  destruct (users s !! B) eqn:HB; [|eauto].
  destruct H as [?|[?|?]]; done.
Qed.

Lemma ProcessSwipe_cases s A B action tSwipe tMatch :
  (A = B ∨ users s !! A = None ∨ users s !! B = None) ∨
  (A ≠ B ∧ is_Some (users s !! A) ∧ is_Some (users s !! B)).
Proof.
  destruct (decide (A = B)); [by left; left|].
  destruct (users s !! A) eqn:HA; [|by left; right; left].
  destruct (users s !! B) eqn:HB; [|by left; right; right].
  right. eauto.
Qed.
End ProcessSwipe_lemmas.

(** ** Invariants of histories *)

Section history_lemmas.
Implicit Types (s : InMemoryStore) (o : op) (ops : list op).

Lemma run_snoc s ops o : run s (ops ++ [o]) = step (run s ops) o.
Proof. unfold run. by rewrite foldl_app. Qed.

Lemma run_cons s o ops : run s (o :: ops) = run (step s o) ops.
Proof. done. Qed.

Lemma run_app s ops ops' : run s (ops ++ ops') = run (run s ops) ops'.
Proof. unfold run. by rewrite foldl_app. Qed.

(** What a call of [ProcessSwipe] can do to the store. *)
Lemma ProcessSwipe_store s A B action tSwipe tMatch :
  let s' := (ProcessSwipe s A B action tSwipe tMatch).1 in
  users s' = users s ∧
  swipes s `prefix_of` swipes s' ∧
  matches s `prefix_of` matches s'.
Proof.
  destruct (ProcessSwipe_cases s A B action tSwipe tMatch) as [Hbad|(Hne & HA & HB)].
  - destruct (ProcessSwipe_invalid s A B action tSwipe tMatch Hbad) as [e ->].
    simpl. done.
  - rewrite ProcessSwipe_valid by done. cbv zeta.
    destruct (_ && _); simpl; split_and!;
      first [done | by apply prefix_app_r].
Qed.

Lemma step_users s o k :
  is_reset o = false → is_Some (users s !! k) → is_Some (users (step s o) !! k).
Proof.
  destruct o as [user| A B action tS tM | | |]; simpl; try done.
  - intros _ Hk. destruct (decide (ID user = k)) as [->|Hne].
    + rewrite lookup_insert_eq. eauto.
    + by rewrite lookup_insert_ne.
  - intros _. by destruct (ProcessSwipe_store s A B action tS tM) as (-> & _).
Qed.

Lemma step_swipes s o :
  is_reset o = false → swipes s `prefix_of` swipes (step s o).
Proof.
  destruct o as [user| A B action tS tM | | |]; simpl; try done.
  intros _. by destruct (ProcessSwipe_store s A B action tS tM) as (_ & ? & _).
Qed.

Lemma run_users s ops k :
  no_reset ops → is_Some (users s !! k) → is_Some (users (run s ops) !! k).
Proof.
  revert s. induction ops as [|o ops IH]; intros s Hnr Hk; [done|].
  apply Forall_cons in Hnr as [Ho Hnr]. rewrite run_cons.
  apply IH; [done|]. by apply step_users.
Qed.

Lemma run_swipes s ops :
  no_reset ops → swipes s `prefix_of` swipes (run s ops).
Proof.
  revert s. induction ops as [|o ops IH]; intros s Hnr; [done|].
  apply Forall_cons in Hnr as [Ho Hnr]. rewrite run_cons.
  etrans; [by apply step_swipes|by apply IH].
Qed.

Lemma liked_mono s s' a b :
  swipes s `prefix_of` swipes s' → liked s a b → liked s' a b.
Proof.
  intros [k Hk] (sw & Hin & H). exists sw. split; [|done].
  rewrite Hk. apply elem_of_app. by left.
Qed.

Lemma match_backed_mono s s' m :
  swipes s `prefix_of` swipes s' →
  (∀ k, is_Some (users s !! k) → is_Some (users s' !! k)) →
  match_backed s m → match_backed s' m.
Proof.
  intros Hsw Hus (H1 & H2 & H3 & H4).
  split_and!; eauto using liked_mono.
Qed.

Lemma step_matches_backed s o : matches_backed s → matches_backed (step s o).
Proof.
  intros Hinv. destruct o as [user| A B action tS tM | | |]; simpl; try done.
  - intros m Hm. apply (match_backed_mono s); [done| |by apply Hinv].
    intros k. by apply (step_users s (OpAddUser user)).
  - destruct (ProcessSwipe_cases s A B action tS tM) as [Hbad|(Hne & HA & HB)].
    { by destruct (ProcessSwipe_invalid s A B action tS tM Hbad) as [e ->]. }
    rewrite ProcessSwipe_valid by done. cbv zeta.
    destruct (bool_decide _ && _) eqn:Hm; simpl.
    + apply andb_true_iff in Hm as [Hact Hrev].
      apply bool_decide_eq_true in Hact.
      apply first_swipe_is_likeb_true, first_swipe_is_like_liked in Hrev.
      intros m [Hin|Hin]%elem_of_app.
      * apply (match_backed_mono s); [by apply prefix_app_r|done|by apply Hinv].
      * apply list_elem_of_singleton in Hin as ->.
        split_and!; simpl; [ | |done..].
        -- eexists. split; [apply elem_of_app; right; left|done].
        -- eapply liked_mono; [|done]. by apply prefix_app_r.
    + intros m Hin.
      apply (match_backed_mono s); [by apply prefix_app_r|done|by apply Hinv].
  - intros m Hm. by apply elem_of_nil in Hm.
Qed.

Lemma step_store_wf s o : store_wf s → store_wf (step s o).
Proof.
  intros Hwf. destruct o as [user| A B action tS tM | | |]; simpl; try done.
  - intros k v. simpl. destruct (decide (ID user = k)) as [<-|Hne].
    + rewrite lookup_insert_eq. by intros [= <-].
    + rewrite lookup_insert_ne by done. apply Hwf.
  - unfold store_wf.
    by destruct (ProcessSwipe_store s A B action tS tM) as (-> & _).
Qed.

(** Induction over the histories that lead to a state. *)
Lemma reachable_ind (P : InMemoryStore → Prop) :
  P defaultStore → (∀ s o, reachable s → P s → P (step s o)) →
  ∀ s, reachable s → P s.
Proof.
  intros H0 Hstep s [ops ->].
  induction ops as [|o ops IH] using rev_ind; [done|].
  rewrite run_snoc. apply Hstep; [by exists ops|done].
Qed.

Lemma reachable_matches_backed s : reachable s → matches_backed s.
Proof.
  intros Hr. induction Hr as [|s o _ IH] using reachable_ind.
  - intros m Hm. by apply elem_of_nil in Hm.
  - by apply step_matches_backed.
Qed.

Lemma reachable_store_wf s : reachable s → store_wf s.
Proof.
  intros Hr. induction Hr as [|s o _ IH] using reachable_ind.
  - intros k v. simpl. by rewrite lookup_empty.
  - by apply step_store_wf.
Qed.

Lemma reachable_run s ops : reachable s → reachable (run s ops).
Proof. intros [ops0 ->]. exists (ops0 ++ ops). by rewrite run_app. Qed.

(** A state with an empty log has no match. *)
Lemma reachable_no_swipes_no_matches s :
  reachable s → swipes s = [] → matches s = [].
Proof.
  intros Hr Hsw. destruct (matches s) as [|m ms] eqn:Hm; [done|].
  destruct (reachable_matches_backed s Hr m) as [(sw & Hin & _) _].
  - rewrite Hm. left.
  - rewrite Hsw in Hin. by apply elem_of_nil in Hin.
Qed.
End history_lemmas.

(** * Properties *)

(** ** The discovery feed *)

(** C1. For a registered requester [u], [GetFeed] succeeds and its result
    holds exactly the stored users in the requester's zone, other than the
    requester, on whom the requester has not swiped. In particular no
    element has the identifier [u] or another zone. As a set: the result
    has no duplicate and does not hold the requester's record (in a store
    whose keys are the users' identifiers, as [AddUser] builds it), and
    any other iteration order over the user map gives a permutation of
    it. *)
Theorem GetFeed_exact (s : InMemoryStore) (u : N) (ru : User) :
  users s !! u = Some ru →
  ∃ feed, GetFeed s u = Ok feed ∧
    (∀ v, v ∈ feed ↔
          stored s v ∧ ZoneID v = ZoneID ru ∧ ID v ≠ u ∧ ¬ swiped_on s u (ID v)) ∧
    (∀ v, v ∈ feed → ID v ≠ u ∧ ZoneID v = ZoneID ru) ∧
    (store_wf s → NoDup feed ∧ ru ∉ feed) ∧
    (∀ allUsers, allUsers ≡ₚ GetAllUsers s →
       feed_loop ru u (build_seenSet (GetSwipesByUser s u)) allUsers [] ≡ₚ feed).
Proof.
  intros Hu. unfold GetFeed, GetUser. rewrite Hu. cbv zeta.
  eexists. split; [reflexivity|].
  rewrite feed_loop_filter. simpl.
  assert (Hmem : ∀ v, v ∈ filter (passes ru u (build_seenSet (GetSwipesByUser s u)))
                            (GetAllUsers s) ↔
                 stored s v ∧ ZoneID v = ZoneID ru ∧ ID v ≠ u ∧ ¬ swiped_on s u (ID v)).
  { intros v. rewrite list_elem_of_filter, elem_of_GetAllUsers.
    unfold passes. rewrite elem_of_seenSet. tauto. }
  split_and!.
  - exact Hmem.
  - intros v Hv. apply Hmem in Hv. tauto.
  - intros Hwf. split.
    + apply NoDup_filter. by apply NoDup_GetAllUsers.
    + intros Hin. apply Hmem in Hin as (_ & _ & Hid & _).
      apply Hid. by apply Hwf.
  - intros allUsers Hperm. rewrite feed_loop_filter. simpl. by rewrite Hperm.
Qed.

Lemma GetFeed_exact_witness :
  users three_users !! 1%N = Some alice ∧
  ∃ feed, GetFeed three_users 1 = Ok feed ∧ bob ∈ feed ∧ (alice ∉ feed) ∧ (carol ∉ feed).
Proof.
  assert (H : users three_users !! 1%N = Some alice) by (vm_compute; reflexivity).
  split; [exact H|].
  destruct (GetFeed_exact three_users 1 alice H) as (feed & Hfeed & Hmem & Hsafe & _).
  exists feed. split_and!; [exact Hfeed| | |].
  - apply Hmem. split_and!.
    + exists 2%N. vm_compute. reflexivity.
    + reflexivity.
    + discriminate.
    + intros (sw & Hin & _). vm_compute in Hin. inversion Hin.
  - intros Hin. apply Hsafe in Hin as [Hid _]. apply Hid. reflexivity.
  - intros Hin. apply Hsafe in Hin as [_ Hz]. discriminate Hz.
Defined.

(** C6, as the code has it. [GetFeed] on an identifier unknown to the store
    fails with the plain error of [fmt.Errorf], whose text is
    [user <id> not found]: an explicit error value, of neither the
    [NotFoundError] nor the [ValidationError] kind. This is the only error
    path: for a registered requester [GetFeed] succeeds. *)
Theorem GetFeed_error_path (s : InMemoryStore) (u : N) :
  (users s !! u = None →
   GetFeed s u = Err (ErrorString ("user " +:+ UUID_String u +:+ " not found")) ∧
   ∀ e, GetFeed s u = Err e →
        asNotFoundError e = false ∧ asValidationError e = false) ∧
  (is_Some (users s !! u) → ∃ feed, GetFeed s u = Ok feed) ∧
  (∀ e, GetFeed s u = Err e → users s !! u = None).
Proof.
  unfold GetFeed, GetUser. split_and!.
  - intros ->. split; [done|]. by intros e [= <-].
  - intros [ru ->]. eauto.
  - destruct (users s !! u); [done|]. done.
Qed.

Lemma GetFeed_error_path_witness :
  users defaultStore !! 7%N = None ∧ is_Some (users three_users !! 1%N) ∧
  GetFeed defaultStore 7 =
    Err (ErrorString "user 00000000-0000-0000-0000-000000000007 not found") ∧
  ∃ feed, GetFeed three_users 1 = Ok feed.
Proof.
  assert (H0 : users defaultStore !! 7%N = None) by (vm_compute; reflexivity).
  assert (H1 : is_Some (users three_users !! 1%N)) by (exists alice; vm_compute; reflexivity).
  split_and!; [exact H0|exact H1| |].
  - exact (proj1 (proj1 (GetFeed_error_path defaultStore 7) H0)).
  - exact (proj1 (proj2 (GetFeed_error_path three_users 1)) H1).
Defined.

(** C6, as the claim states it, fails: on the empty store the error of
    [GetFeed] for the unknown identifier 7 is not of the [NotFoundError]
    kind, so the type switch of [CreateSwipe] would answer 500 for it. *)
Lemma GetFeed_error_not_NotFoundError :
  users defaultStore !! 7%N = None ∧
  ∃ e, GetFeed defaultStore 7 = Err e ∧ asNotFoundError e = false ∧
       CreateSwipe_status e = 500%Z.
Proof.
  split; [vm_compute; reflexivity|].
  eexists. split; [vm_compute; reflexivity|]. split; reflexivity.
Qed.

(** ** Swipe processing *)

(** C3. The three validation rules of [ProcessSwipe] are tried in order and
    the first that fails decides the error: a self-swipe is a
    [ValidationError] whether or not the identifier is known; otherwise an
    unknown swiper is a [NotFoundError] that names the swiper; otherwise an
    unknown swiped user is a [NotFoundError] that names the swiped user. A
    caller tells the two kinds apart by type, as [CreateSwipe] does to
    answer 404 or 400. *)
Theorem ProcessSwipe_validation_order
    (s : InMemoryStore) (A B : N) (action : string) (tSwipe tMatch : Z) :
  (A = B →
   ProcessSwipe s A B action tSwipe tMatch =
   (s, Err (ValidationError "cannot swipe on yourself"))) ∧
  (A ≠ B → users s !! A = None →
   ProcessSwipe s A B action tSwipe tMatch =
   (s, Err (NotFoundError ("swiper user " +:+ UUID_String A +:+ " not found")))) ∧
  (A ≠ B → is_Some (users s !! A) → users s !! B = None →
   ProcessSwipe s A B action tSwipe tMatch =
   (s, Err (NotFoundError ("swiped user " +:+ UUID_String B +:+ " not found")))) ∧
  (∀ nf v,
     asNotFoundError (NotFoundError nf) = true ∧
     asValidationError (NotFoundError nf) = false ∧
     asValidationError (ValidationError v) = true ∧
     asNotFoundError (ValidationError v) = false ∧
     CreateSwipe_status (NotFoundError nf) = 404%Z ∧
     CreateSwipe_status (ValidationError v) = 400%Z).
Proof.
  unfold ProcessSwipe, GetUser. split_and!.
  - intros Heq. by rewrite bool_decide_eq_true_2.
  - intros Hne HA. rewrite bool_decide_eq_false_2 by done. by rewrite HA.
  - intros Hne [ua HA] HB. rewrite bool_decide_eq_false_2 by done.
    by rewrite HA, HB.
  - done.
Qed.

Lemma ProcessSwipe_validation_order_witness :
  ProcessSwipe defaultStore 9 9 SwipeActionLike 0 0 =
    (defaultStore, Err (ValidationError "cannot swipe on yourself")) ∧
  ProcessSwipe three_users 9 1 SwipeActionLike 0 0 =
    (three_users,
     Err (NotFoundError "swiper user 00000000-0000-0000-0000-000000000009 not found")) ∧
  ProcessSwipe three_users 1 9 SwipeActionLike 0 0 =
    (three_users,
     Err (NotFoundError "swiped user 00000000-0000-0000-0000-000000000009 not found")).
Proof.
  split_and!.
  - exact (proj1 (ProcessSwipe_validation_order defaultStore 9 9 SwipeActionLike 0 0)
             eq_refl).
  - apply (proj1 (proj2 (ProcessSwipe_validation_order three_users 9 1
                           SwipeActionLike 0 0))).
    + discriminate.
    + vm_compute. reflexivity.
  - apply (proj1 (proj2 (proj2 (ProcessSwipe_validation_order three_users 1 9
                                  SwipeActionLike 0 0)))).
    + discriminate.
    + exists alice. vm_compute. reflexivity.
    + vm_compute. reflexivity.
Defined.

(** An error comes from one of the three rules and leaves the store as it
    was. *)
Lemma ProcessSwipe_Err_inv
    (s : InMemoryStore) (A B : N) (action : string) (tSwipe tMatch : Z) (e : error) :
  (ProcessSwipe s A B action tSwipe tMatch).2 = Err e →
  (A = B ∨ users s !! A = None ∨ users s !! B = None) ∧
  (ProcessSwipe s A B action tSwipe tMatch).1 = s.
Proof.
  destruct (ProcessSwipe_cases s A B action tSwipe tMatch) as [Hbad|(Hne & HA & HB)].
  - destruct (ProcessSwipe_invalid s A B action tSwipe tMatch Hbad) as [e' ->].
    simpl. done.
  - rewrite ProcessSwipe_valid by done. cbv zeta.
    by destruct (_ && _).
Qed.

(** C4. [ProcessSwipe] returns an error exactly on a self-swipe, an unknown
    swiper or an unknown swiped user, and then the store after the call is
    the store before it: the user map, the swipe log and the match log are
    the same. *)
Theorem ProcessSwipe_error_no_effect
    (s : InMemoryStore) (A B : N) (action : string) (tSwipe tMatch : Z) (e : error) :
  (ProcessSwipe s A B action tSwipe tMatch).2 = Err e →
  (A = B ∨ users s !! A = None ∨ users s !! B = None) ∧
  (ProcessSwipe s A B action tSwipe tMatch).1 = s ∧
  users (ProcessSwipe s A B action tSwipe tMatch).1 = users s ∧
  swipes (ProcessSwipe s A B action tSwipe tMatch).1 = swipes s ∧
  matches (ProcessSwipe s A B action tSwipe tMatch).1 = matches s.
Proof.
  intros He. destruct (ProcessSwipe_Err_inv _ _ _ _ _ _ _ He) as [Hbad ->]. done.
Qed.

Lemma ProcessSwipe_error_no_effect_witness :
  (ProcessSwipe three_users 1 1 SwipeActionLike 0 0).2 =
    Err (ValidationError "cannot swipe on yourself") ∧
  (ProcessSwipe three_users 1 1 SwipeActionLike 0 0).1 = three_users.
Proof.
  assert (H : (ProcessSwipe three_users 1 1 SwipeActionLike 0 0).2 =
              Err (ValidationError "cannot swipe on yourself"))
    by (vm_compute; reflexivity).
  split; [exact H|].
  exact (proj1 (proj2 (ProcessSwipe_error_no_effect three_users 1 1 SwipeActionLike
                         0 0 _ H))).
Defined.

(** The calls that return an error are exactly those that break one of the
    three rules. *)
Lemma ProcessSwipe_error_iff
    (s : InMemoryStore) (A B : N) (action : string) (tSwipe tMatch : Z) :
  (∃ e, (ProcessSwipe s A B action tSwipe tMatch).2 = Err e) ↔
  A = B ∨ users s !! A = None ∨ users s !! B = None.
Proof.
  split.
  - intros [e He]. by destruct (ProcessSwipe_Err_inv _ _ _ _ _ _ _ He).
  - intros Hbad. destruct (ProcessSwipe_invalid s A B action tSwipe tMatch Hbad) as [e ->].
    eauto.
Qed.

(** ** Match detection *)

Example swipes_pass_then_like :
  swipes pass_then_like = [mkSwipe 2 1 SwipeActionPass 10; mkSwipe 2 1 SwipeActionLike 20].
Proof. vm_compute. reflexivity. Qed.

(** C2, as the claim states it, fails: after Bob has passed on Alice and
    then liked her, the log holds a LIKE from Bob to Alice, both are
    registered, and yet Alice's LIKE on Bob succeeds without a match;
    [FindSwipe] has returned Bob's PASS. *)
Lemma ProcessSwipe_like_on_record_no_match :
  reachable pass_then_like ∧
  is_Some (users pass_then_like !! 1%N) ∧ is_Some (users pass_then_like !! 2%N) ∧
  liked pass_then_like 2 1 ∧
  ∃ s' r, ProcessSwipe pass_then_like 1 2 SwipeActionLike 30 31 = (s', Ok r) ∧
          Matched r = false ∧ ResMatch r = None ∧ matches s' = [].
Proof.
  split_and!.
  - eexists. reflexivity.
  - exists alice. vm_compute. reflexivity.
  - exists bob. vm_compute. reflexivity.
  - exists (mkSwipe 2 1 SwipeActionLike 20). split_and!; [|reflexivity..].
    rewrite swipes_pass_then_like. right. left.
  - eexists _, _. split; [vm_compute; reflexivity|]. done.
Qed.

(** C2, as the code has it. A call of [ProcessSwipe] by a registered user
    on another registered user succeeds and records the swipe. It creates
    a match, appends it to the match log and returns it with
    [Matched = true] if and only if the action is LIKE and the earliest
    swipe from the swiped user to the swiper in the log is a LIKE;
    otherwise [Matched = false], no match is returned and the match log is
    as before. From a state of the service with an empty log, a LIKE from
    [A] to [B] and then a LIKE from [B] to [A] gives [Matched = true] on
    the second call and the same single match to both users; a LIKE and
    then a PASS gives [Matched = false] and no match to either. *)
Theorem ProcessSwipe_match_iff
    (s : InMemoryStore) (A B : N) (action : string) (tSwipe tMatch : Z) :
  A ≠ B → is_Some (users s !! A) → is_Some (users s !! B) →
  (∃ s' r,
     ProcessSwipe s A B action tSwipe tMatch = (s', Ok r) ∧
     ResSwipe r = mkSwipe A B action tSwipe ∧
     users s' = users s ∧ swipes s' = swipes s ++ [ResSwipe r] ∧
     (Matched r = true ↔ action = SwipeActionLike ∧ first_swipe_is_like s B A) ∧
     (Matched r = true →
      ResMatch r = Some (mkMatch A B tMatch) ∧
      matches s' = matches s ++ [mkMatch A B tMatch]) ∧
     (Matched r = false → ResMatch r = None ∧ matches s' = matches s)) ∧
  (reachable s → swipes s = [] →
   ∀ t3 t4,
     let s1 := (ProcessSwipe s A B SwipeActionLike tSwipe tMatch).1 in
     (∃ s2 r, ProcessSwipe s1 B A SwipeActionLike t3 t4 = (s2, Ok r) ∧
              Matched r = true ∧ ResMatch r = Some (mkMatch B A t4) ∧
              GetMatchesForUser s2 A = [mkMatch B A t4] ∧
              GetMatchesForUser s2 B = [mkMatch B A t4]) ∧
     (∃ s2 r, ProcessSwipe s1 B A SwipeActionPass t3 t4 = (s2, Ok r) ∧
              Matched r = false ∧ ResMatch r = None ∧
              GetMatchesForUser s2 A = [] ∧ GetMatchesForUser s2 B = [])).
Proof.
  intros Hne HA HB. split.
  - rewrite ProcessSwipe_valid by done. cbv zeta.
    destruct (bool_decide _ && _) eqn:Hm.
    + eexists _, _. split; [reflexivity|]. simpl. split_and!; try done.
      split; [|done]. intros _.
      apply andb_true_iff in Hm as [Hact Hrev].
      apply bool_decide_eq_true in Hact.
      by apply first_swipe_is_likeb_true in Hrev.
    + eexists _, _. split; [reflexivity|]. simpl. split_and!; try done.
      split; [done|]. intros [Hact Hrev].
      apply first_swipe_is_likeb_true in Hrev.
      rewrite bool_decide_eq_true_2 in Hm by done. by rewrite Hrev in Hm.
  - intros Hr Hsw t3 t4 s1.
    pose proof (reachable_no_swipes_no_matches s Hr Hsw) as Hmt.
    assert (Hs1 : s1 = mkStore (users s) [mkSwipe A B SwipeActionLike tSwipe] []).
    { subst s1. rewrite ProcessSwipe_valid by done. cbv zeta.
      assert (first_swipe_is_likeb s B A = false) as ->
        by (unfold first_swipe_is_likeb, FindSwipe; by rewrite Hsw).
      rewrite andb_false_r. simpl. by rewrite Hsw, Hmt. }
    clearbody s1. subst s1.
    split.
    + rewrite ProcessSwipe_valid by done. cbv zeta.
      unfold first_swipe_is_likeb, FindSwipe. simpl.
      rewrite !bool_decide_eq_true_2 by done. simpl.
      eexists _, _. split; [reflexivity|]. simpl. split_and!; try done.
      * unfold GetMatchesForUser. simpl.
        rewrite filter_cons_True by (simpl; auto). done.
      * unfold GetMatchesForUser. simpl.
        rewrite filter_cons_True by (simpl; auto). done.
    + rewrite ProcessSwipe_valid by done. cbv zeta.
      rewrite (bool_decide_eq_false_2 (SwipeActionPass = SwipeActionLike)) by done.
      simpl. eexists _, _. split; [reflexivity|]. simpl. done.
Qed.

Lemma ProcessSwipe_match_iff_witness :
  (1%N ≠ 2%N ∧ is_Some (users three_users !! 1%N) ∧
   is_Some (users three_users !! 2%N) ∧
   reachable three_users ∧ swipes three_users = []) ∧
  ∃ s2 r,
    ProcessSwipe (ProcessSwipe three_users 1 2 SwipeActionLike 10 11).1
                 2 1 SwipeActionLike 20 21 = (s2, Ok r) ∧
    Matched r = true ∧
    GetMatchesForUser s2 1 = [mkMatch 2 1 21] ∧
    GetMatchesForUser s2 2 = [mkMatch 2 1 21].
Proof.
  assert (Hne : 1%N ≠ 2%N) by discriminate.
  assert (HA : is_Some (users three_users !! 1%N))
    by (exists alice; vm_compute; reflexivity).
  assert (HB : is_Some (users three_users !! 2%N))
    by (exists bob; vm_compute; reflexivity).
  assert (Hr : reachable three_users) by (eexists; reflexivity).
  assert (Hsw : swipes three_users = []) by reflexivity.
  split; [done|].
  destruct (ProcessSwipe_match_iff three_users 1 2 SwipeActionLike 10 11 Hne HA HB)
    as [_ Hscen].
  destruct (Hscen Hr Hsw 20%Z 21%Z) as [(s2 & r & H1 & H2 & H3 & H4 & H5) _].
  exists s2, r. done.
Defined.

(** C9. Match detection looks at the earliest swipe of the swiped user on
    the swiper and at nothing after it. Let [rev] be the first swipe from
    [B] to [A] in the log, with any swipes [post] after it. [FindSwipe]
    returns [rev]. If [rev] is a LIKE, a LIKE from [A] to [B] creates a
    match, also when [post] holds a PASS from [B] to [A]; if [rev] is a
    PASS, it creates none, also when [post] holds a LIKE from [B] to
    [A]. *)
Theorem first_reverse_swipe_decides
    (s : InMemoryStore) (A B : N) (pre post : list Swipe) (rev : Swipe)
    (tSwipe tMatch : Z) :
  A ≠ B → is_Some (users s !! A) → is_Some (users s !! B) →
  swipes s = pre ++ rev :: post →
  of_pair B A rev → (∀ x, x ∈ pre → ¬ of_pair B A x) →
  FindSwipe s B A = Some rev ∧
  (Action rev = SwipeActionLike →
   ∃ s' r, ProcessSwipe s A B SwipeActionLike tSwipe tMatch = (s', Ok r) ∧
           Matched r = true ∧ ResMatch r = Some (mkMatch A B tMatch) ∧
           matches s' = matches s ++ [mkMatch A B tMatch]) ∧
  (Action rev = SwipeActionPass →
   ∃ s' r, ProcessSwipe s A B SwipeActionLike tSwipe tMatch = (s', Ok r) ∧
           Matched r = false ∧ ResMatch r = None ∧ matches s' = matches s).
Proof.
  intros Hne HA HB Hlog Hrev Hpre.
  assert (Hfind : FindSwipe s B A = Some rev).
  { unfold FindSwipe. apply find_swipe_Some. by exists pre, post. }
  split; [done|].
  rewrite ProcessSwipe_valid by done. cbv zeta.
  unfold first_swipe_is_likeb. rewrite Hfind.
  rewrite (bool_decide_eq_true_2 (SwipeActionLike = SwipeActionLike)) by done.
  simpl. split.
  - intros Hact. rewrite bool_decide_eq_true_2 by done.
    eexists _, _. split; [reflexivity|]. done.
  - intros Hact. rewrite bool_decide_eq_false_2 by (by rewrite Hact).
    eexists _, _. split; [reflexivity|]. done.
Qed.

Lemma first_reverse_swipe_decides_witness :
  (∃ s' r, ProcessSwipe like_then_pass 1 2 SwipeActionLike 30 31 = (s', Ok r) ∧
           Matched r = true ∧ matches s' = [mkMatch 1 2 31]) ∧
  (∃ s' r, ProcessSwipe pass_then_like 1 2 SwipeActionLike 30 31 = (s', Ok r) ∧
           Matched r = false ∧ matches s' = []).
Proof.
  assert (Hne : 1%N ≠ 2%N) by discriminate.
  split.
  - destruct (first_reverse_swipe_decides like_then_pass 1 2
                [] [mkSwipe 2 1 SwipeActionPass 20] (mkSwipe 2 1 SwipeActionLike 10)
                30 31 Hne) as (_ & Hlike & _).
    + exists alice. vm_compute. reflexivity.
    + exists bob. vm_compute. reflexivity.
    + vm_compute. reflexivity.
    + split; reflexivity.
    + intros x Hx. inversion Hx.
    + destruct (Hlike eq_refl) as (s' & r & H1 & H2 & _ & H3).
      exists s', r. split_and!; [exact H1|exact H2|exact H3].
  - destruct (first_reverse_swipe_decides pass_then_like 1 2
                [] [mkSwipe 2 1 SwipeActionLike 20] (mkSwipe 2 1 SwipeActionPass 10)
                30 31 Hne) as (_ & _ & Hpass).
    + exists alice. vm_compute. reflexivity.
    + exists bob. vm_compute. reflexivity.
    + vm_compute. reflexivity.
    + split; reflexivity.
    + intros x Hx. inversion Hx.
    + destruct (Hpass eq_refl) as (s' & r & H1 & H2 & _ & H3).
      exists s', r. split_and!; [exact H1|exact H2|exact H3].
Defined.

(** C10. Matches are not unique per pair of users: when Alice and Bob have
    liked each other and Alice likes Bob again, the third call is matched
    and appends a second record of the same pair, and [GetMatchesForUser]
    returns both records to each of them. *)
Theorem matches_not_unique :
  ∃ ops m1 m2 r,
    let before := run defaultStore (take 4 ops) in
    let s := run defaultStore ops in
    matches before = [m1] ∧
    ProcessSwipe before 1 2 SwipeActionLike 30 31 = (s, Ok r) ∧
    Matched r = true ∧ ResMatch r = Some m2 ∧
    matches s = [m1; m2] ∧ same_pair m1 m2 ∧
    GetMatchesForUser s 1 = [m1; m2] ∧ GetMatchesForUser s 2 = [m1; m2].
Proof.
  exists like_twice, (mkMatch 2 1 21), (mkMatch 1 2 31).
  eexists. cbv zeta. split_and!.
  - vm_compute. reflexivity.
  - vm_compute. reflexivity.
  - reflexivity.
  - reflexivity.
  - vm_compute. reflexivity.
  - right. split; reflexivity.
  - vm_compute. reflexivity.
  - vm_compute. reflexivity.
Qed.

(** ** Histories *)

(** C5. In every state reached from the empty store by [AddUser],
    [ProcessSwipe], [GetFeed], [GetMatchesForUser] and [Reset], each match
    of the match log has its two LIKE swipes, one in each direction, in the
    swipe log, and its two users in the user map. *)
Theorem reachable_matches_sound (s : InMemoryStore) (m : Match) :
  reachable s → m ∈ matches s →
  liked s (User1ID m) (User2ID m) ∧ liked s (User2ID m) (User1ID m) ∧
  is_Some (users s !! User1ID m) ∧ is_Some (users s !! User2ID m).
Proof. intros Hr Hm. by apply reachable_matches_backed. Qed.

Lemma reachable_matches_sound_witness :
  (reachable mutual_like ∧ mkMatch 2 1 21 ∈ matches mutual_like) ∧
  liked mutual_like 2 1 ∧ liked mutual_like 1 2 ∧
  is_Some (users mutual_like !! 2%N) ∧ is_Some (users mutual_like !! 1%N).
Proof.
  assert (Hr : reachable mutual_like) by (eexists; reflexivity).
  assert (Hm : mkMatch 2 1 21 ∈ matches mutual_like).
  { replace (matches mutual_like) with [mkMatch 2 1 21] by (vm_compute; reflexivity).
    left. }
  split; [done|].
  exact (reachable_matches_sound mutual_like (mkMatch 2 1 21) Hr Hm).
Defined.

(** A successful call has passed the three rules. *)
Lemma ProcessSwipe_Ok_inv
    (s s' : InMemoryStore) (A B : N) (action : string) (tSwipe tMatch : Z)
    (r : ProcessSwipeResult) :
  ProcessSwipe s A B action tSwipe tMatch = (s', Ok r) →
  A ≠ B ∧ is_Some (users s !! A) ∧ is_Some (users s !! B) ∧
  users s' = users s ∧ mkSwipe A B action tSwipe ∈ swipes s'.
Proof.
  intros Hok.
  destruct (ProcessSwipe_cases s A B action tSwipe tMatch) as [Hbad|(Hne & HA & HB)].
  { destruct (ProcessSwipe_invalid s A B action tSwipe tMatch Hbad) as [e He].
    congruence. }
  split_and!; [done..| |];
    rewrite ProcessSwipe_valid in Hok by done; cbv zeta in Hok;
    destruct (_ && _); injection Hok as <- _; simpl; try done;
    apply elem_of_app; right; left.
Qed.

(** The feed of a registered requester, as a filter of the stored users. *)
Lemma GetFeed_registered (s : InMemoryStore) (u : N) (ru : User) :
  users s !! u = Some ru →
  GetFeed s u =
  Ok (filter (passes ru u (build_seenSet (GetSwipesByUser s u))) (GetAllUsers s)).
Proof.
  intros Hu. unfold GetFeed, GetUser. rewrite Hu. cbv zeta.
  by rewrite feed_loop_filter.
Qed.

(** C7. After a successful LIKE of [A] on [B], in every later state reached
    by core operations other than [Reset], whoever performs them,
    [GetFeed] for [A] succeeds and no user of its result has the
    identifier [B]. *)
Theorem swiped_user_stays_out_of_feed
    (s s' : InMemoryStore) (A B : N) (tSwipe tMatch : Z) (r : ProcessSwipeResult)
    (ops : list op) :
  ProcessSwipe s A B SwipeActionLike tSwipe tMatch = (s', Ok r) →
  no_reset ops →
  ∃ feed, GetFeed (run s' ops) A = Ok feed ∧ ∀ v, v ∈ feed → ID v ≠ B.
Proof.
  intros Hok Hnr.
  apply ProcessSwipe_Ok_inv in Hok as (Hne & HA & HB & Hus & Hsw).
  assert (HA' : is_Some (users (run s' ops) !! A)).
  { apply run_users; [done|]. by rewrite Hus. }
  destruct HA' as [ru Hru].
  assert (Hseen : swiped_on (run s' ops) A B).
  { destruct (run_swipes s' ops Hnr) as [k Hk].
    exists (mkSwipe A B SwipeActionLike tSwipe). split; [|done].
    rewrite Hk. apply elem_of_app. by left. }
  rewrite (GetFeed_registered _ _ ru) by done.
  eexists. split; [reflexivity|].
  intros v (Hp & _)%list_elem_of_filter Hid.
  destruct Hp as (_ & _ & Hns). apply Hns.
  apply elem_of_seenSet. by rewrite Hid.
Qed.

Lemma swiped_user_stays_out_of_feed_witness :
  ∃ feed,
    GetFeed (run (ProcessSwipe three_users 1 2 SwipeActionLike 10 11).1
               [OpProcessSwipe 2 1 SwipeActionLike 20 21; OpGetFeed 2;
                OpAddUser (mkUser 4 "Dan" 30 "other" "zone-x")]) 1 = Ok feed ∧
    ∀ v, v ∈ feed → ID v ≠ 2%N.
Proof.
  eapply (swiped_user_stays_out_of_feed three_users _ 1 2 10 11).
  - vm_compute. reflexivity.
  - repeat constructor.
Defined.

(** The empty store stays empty as long as no user is registered. *)
Lemma run_defaultStore_no_add_user (ops : list op) :
  no_add_user ops → run defaultStore ops = defaultStore.
Proof.
  induction ops as [|o ops IH]; [done|].
  intros [Ho Hops]%Forall_cons. rewrite run_cons.
  replace (step defaultStore o) with defaultStore; [by apply IH|].
  destruct o as [user| A B action tS tM | | |]; simpl; try done.
  destruct (ProcessSwipe_invalid defaultStore A B action tS tM) as [e ->]; [|done].
  right. left. apply lookup_empty.
Qed.

(** An identifier stays unknown as long as no user is registered under
    it. *)
Lemma run_never_registers (s : InMemoryStore) (A : N) (ops : list op) :
  users s !! A = None → never_registers A ops → users (run s ops) !! A = None.
Proof.
  revert s. induction ops as [|o ops IH]; intros s HA Hops; [done|].
  apply Forall_cons in Hops as [Ho Hops]. rewrite run_cons. apply IH; [|done].
  destruct o as [user| X Y action tS tM | | |]; simpl; try done.
  - simpl in Ho. apply bool_decide_eq_false in Ho. by rewrite lookup_insert_ne.
  - by destruct (ProcessSwipe_store s X Y action tS tM) as (-> & _).
Qed.

(** C8, as the code has it. [Reset] gives the empty initial store: the user
    map, the swipe log and the match log are empty, and the store stays
    empty until a user is registered. In every later state, whatever was
    registered or swiped since, in which no user has been registered again
    under an identifier [A], so for an [A] that was registered before the
    [Reset]: [A] is unknown; [GetFeed] for [A] fails with its
    [user <id> not found] error; [ProcessSwipe] of [A] on a different
    identifier fails with the [NotFoundError] that names the swiper [A];
    [ProcessSwipe] of a different identifier [B] on [A] fails with a
    [NotFoundError], which names [A] when [B] is registered; and each of
    these calls leaves the store as it was. [ProcessSwipe] of an
    identifier on itself fails with the [ValidationError] of a
    self-swipe. *)
Theorem Reset_then_not_found
    (s : InMemoryStore) (ops : list op) (A B : N) (action : string)
    (tSwipe tMatch : Z) :
  never_registers A ops →
  Reset s = defaultStore ∧
  users (Reset s) = ∅ ∧ swipes (Reset s) = [] ∧ matches (Reset s) = [] ∧
  (no_add_user ops → run (Reset s) ops = defaultStore) ∧
  users (run (Reset s) ops) !! A = None ∧
  GetFeed (run (Reset s) ops) A =
    Err (ErrorString ("user " +:+ UUID_String A +:+ " not found")) ∧
  (A ≠ B →
   ProcessSwipe (run (Reset s) ops) A B action tSwipe tMatch =
   (run (Reset s) ops,
    Err (NotFoundError ("swiper user " +:+ UUID_String A +:+ " not found")))) ∧
  (A ≠ B →
   ∃ msg, ProcessSwipe (run (Reset s) ops) B A action tSwipe tMatch =
          (run (Reset s) ops, Err (NotFoundError msg)) ∧
          (is_Some (users (run (Reset s) ops) !! B) →
           msg = "swiped user " +:+ UUID_String A +:+ " not found")) ∧
  ProcessSwipe (run (Reset s) ops) A A action tSwipe tMatch =
    (run (Reset s) ops, Err (ValidationError "cannot swipe on yourself")).
Proof.
  intros Hops.
  assert (HA : users (run (Reset s) ops) !! A = None)
    by (by apply run_never_registers).
  split_and!; try done.
  - apply run_defaultStore_no_add_user.
  - unfold GetFeed, GetUser. by rewrite HA.
  - intros Hne. unfold ProcessSwipe, GetUser.
    rewrite bool_decide_eq_false_2 by done. by rewrite HA.
  - intros Hne. unfold ProcessSwipe, GetUser.
    rewrite bool_decide_eq_false_2 by done.
    destruct (users (run (Reset s) ops) !! B) as [ub|] eqn:HB.
    + rewrite HA. eauto.
    + eexists. split; [done|]. by intros [x Hx].
  - unfold ProcessSwipe. by rewrite bool_decide_eq_true_2.
Qed.

Lemma Reset_then_not_found_witness :
  never_registers 1 [OpAddUser carol; OpAddUser bob;
                     OpProcessSwipe 2 3 SwipeActionLike 40 41] ∧
  GetFeed (run (Reset mutual_like)
             [OpAddUser carol; OpAddUser bob;
              OpProcessSwipe 2 3 SwipeActionLike 40 41]) 1 =
    Err (ErrorString "user 00000000-0000-0000-0000-000000000001 not found") ∧
  (ProcessSwipe (run (Reset mutual_like)
                   [OpAddUser carol; OpAddUser bob;
                    OpProcessSwipe 2 3 SwipeActionLike 40 41])
                1 2 SwipeActionLike 50 51).2 =
    Err (NotFoundError "swiper user 00000000-0000-0000-0000-000000000001 not found").
Proof.
  assert (Hops : never_registers 1 [OpAddUser carol; OpAddUser bob;
                                    OpProcessSwipe 2 3 SwipeActionLike 40 41])
    by (repeat constructor).
  split; [exact Hops|].
  destruct (Reset_then_not_found mutual_like _ 1 2 SwipeActionLike 50 51 Hops)
    as (_ & _ & _ & _ & _ & _ & Hfeed & Hswipe & _).
  split; [exact Hfeed|]. rewrite Hswipe by discriminate. reflexivity.
Defined.

(** C8, as the claim states it, fails. Alice is registered before the
    [Reset]: after it her swipe on herself is rejected by the first rule,
    with the [ValidationError] and not with a not-found error; and once she
    is registered again under her identifier, [GetFeed] for her
    succeeds. *)
Lemma Reset_then_self_swipe_is_validation :
  is_Some (users three_users !! 1%N) ∧
  (∃ e, ProcessSwipe (Reset three_users) 1 1 SwipeActionLike 0 0 =
          (Reset three_users, Err e) ∧
        e = ValidationError "cannot swipe on yourself" ∧
        asNotFoundError e = false ∧ CreateSwipe_status e = 400%Z) ∧
  GetFeed (run (Reset three_users) [OpAddUser alice]) 1 = Ok [].
Proof.
  split_and!.
  - exists alice. vm_compute. reflexivity.
  - eexists. split; [vm_compute; reflexivity|]. done.
  - vm_compute. reflexivity.
Qed.

(** * Further properties *)

(** ** The store *)

Lemma length_GetAllUsers (s : InMemoryStore) :
  List.length (GetAllUsers s) = size (users s).
Proof. unfold GetAllUsers. by rewrite length_fmap, length_map_to_list. Qed.

(** X1. [AddUser] stores the user under its identifier and overwrites
    silently: the user is then returned by [GetUser], the other identifiers
    answer as before, the two logs are as before, and the number of users
    grows by one exactly when the identifier was not yet registered. *)
Theorem AddUser_overwrites (s : InMemoryStore) (user : User) :
  GetUser (AddUser s user) (ID user) = Some user ∧
  (∀ id, id ≠ ID user → GetUser (AddUser s user) id = GetUser s id) ∧
  swipes (AddUser s user) = swipes s ∧ matches (AddUser s user) = matches s ∧
  List.length (GetAllUsers (AddUser s user)) =
    match GetUser s (ID user) with
    | Some _ => List.length (GetAllUsers s)
    | None => S (List.length (GetAllUsers s))
    end.
Proof.
  unfold GetUser. split_and!; try done.
  - apply lookup_insert_eq.
  - intros id Hid. by apply lookup_insert_ne.
  - rewrite !length_GetAllUsers. simpl.
    destruct (users s !! ID user) as [old|] eqn:Hold.
    + rewrite <- (insert_delete_id (users s) (ID user) old) at 2 by done.
      rewrite <- (insert_delete_eq (users s)).
      rewrite !map_size_insert_None by apply lookup_delete_eq. done.
    + by apply map_size_insert_None.
Qed.

(** X2. [GetSwipesByUser] gives the swipes of that swiper and no other, in
    the order of the log, and [AddSwipe] puts a swipe at the end of its
    swiper's list and leaves the other lists as they were. *)
Theorem GetSwipesByUser_AddSwipe (s : InMemoryStore) (sw : Swipe) (u : N) :
  GetSwipesByUser s u `sublist_of` swipes s ∧
  (∀ x, x ∈ GetSwipesByUser s u ↔ x ∈ swipes s ∧ SwiperID x = u) ∧
  GetSwipesByUser (AddSwipe s sw) u =
    GetSwipesByUser s u ++ (if decide (SwiperID sw = u) then [sw] else []).
Proof.
  unfold GetSwipesByUser. split_and!.
  - apply sublist_filter.
  - intros x. rewrite list_elem_of_filter. tauto.
  - simpl. by rewrite filter_app.
Qed.

Lemma find_swipe_head (l : list Swipe) (a b : N) :
  find_swipe l a b = head (filter (of_pair a b) l).
Proof.
  induction l as [|x l IH]; [done|].
  rewrite find_swipe_cons. case_decide.
  - by rewrite filter_cons_True.
  - by rewrite filter_cons_False.
Qed.

(** X3. [FindSwipe] is sensitive to direction and returns the head of the
    swiper's own swipes on that user: it answers nil exactly when the log
    has no swipe from [a] to [b], whatever it has from [b] to [a], and what
    it returns is a swipe of the log from [a] to [b]. *)
Theorem FindSwipe_first_of_swiper (s : InMemoryStore) (a b : N) :
  FindSwipe s a b = head (filter (λ sw, SwipedID sw = b) (GetSwipesByUser s a)) ∧
  (FindSwipe s a b = None ↔ ¬ swiped_on s a b) ∧
  (∀ sw, FindSwipe s a b = Some sw →
         sw ∈ swipes s ∧ SwiperID sw = a ∧ SwipedID sw = b).
Proof.
  unfold FindSwipe. split_and!.
  - rewrite find_swipe_head. unfold GetSwipesByUser.
    rewrite list_filter_filter. f_equal.
    apply list_filter_iff. intros x. unfold of_pair. tauto.
  - rewrite find_swipe_None. unfold swiped_on, of_pair. split.
    + intros H (sw & Hin & Hp). by apply (H sw).
    + intros H sw Hin Hp. apply H. eauto.
  - intros sw H. apply find_swipe_Some_elem in H as [Hin [H1 H2]]. done.
Qed.

Lemma FindSwipe_prefix (s s' : InMemoryStore) (a b : N) (sw : Swipe) :
  swipes s `prefix_of` swipes s' → FindSwipe s a b = Some sw →
  FindSwipe s' a b = Some sw.
Proof.
  intros [k Hk] Hf. unfold FindSwipe in *. rewrite Hk, find_swipe_app. by rewrite Hf.
Qed.

(** X4. The first swipe of an ordered pair is final: once [FindSwipe]
    returns a swipe for the pair, it returns the same swipe after any
    history without a [Reset], whatever is swiped later. *)
Theorem FindSwipe_is_final (s : InMemoryStore) (a b : N) (sw : Swipe) (ops : list op) :
  FindSwipe s a b = Some sw → no_reset ops →
  FindSwipe (run s ops) a b = Some sw.
Proof.
  intros Hf Hnr. apply (FindSwipe_prefix s); [|done]. by apply run_swipes.
Qed.

Lemma FindSwipe_is_final_witness :
  FindSwipe like_then_pass 2 1 = Some (mkSwipe 2 1 SwipeActionLike 10) ∧
  FindSwipe (run like_then_pass [OpProcessSwipe 2 1 SwipeActionPass 30 31;
                                 OpProcessSwipe 1 2 SwipeActionLike 40 41]) 2 1 =
    Some (mkSwipe 2 1 SwipeActionLike 10).
Proof.
  assert (H : FindSwipe like_then_pass 2 1 = Some (mkSwipe 2 1 SwipeActionLike 10))
    by (vm_compute; reflexivity).
  split; [exact H|].
  apply (FindSwipe_is_final like_then_pass 2 1 _ _ H). repeat constructor.
Defined.

(** X5. A match is visible from both sides: [AddMatch] puts the match at
    the end of the list of each of its two users and leaves the list of
    every other user as it was. *)
Theorem GetMatchesForUser_AddMatch (s : InMemoryStore) (m : Match) (u : N) :
  GetMatchesForUser (AddMatch s m) u =
    GetMatchesForUser s u ++
    (if decide (User1ID m = u ∨ User2ID m = u) then [m] else []) ∧
  m ∈ GetMatchesForUser (AddMatch s m) (User1ID m) ∧
  m ∈ GetMatchesForUser (AddMatch s m) (User2ID m) ∧
  (∀ x, x ∈ GetMatchesForUser s u ↔ x ∈ matches s ∧ (User1ID x = u ∨ User2ID x = u)).
Proof.
  unfold GetMatchesForUser. simpl. split_and!.
  - by rewrite filter_app.
  - apply list_elem_of_filter. split; [by left|]. apply elem_of_app. right. left.
  - apply list_elem_of_filter. split; [by right|]. apply elem_of_app. right. left.
  - intros x. rewrite list_elem_of_filter. tauto.
Qed.

(** ** Swipes and feeds *)

(** A successful call appends exactly its swipe to the log. *)
Lemma ProcessSwipe_Ok_swipes
    (s s' : InMemoryStore) (A B : N) (action : string) (tSwipe tMatch : Z)
    (r : ProcessSwipeResult) :
  ProcessSwipe s A B action tSwipe tMatch = (s', Ok r) →
  A ≠ B ∧ is_Some (users s !! A) ∧ is_Some (users s !! B) ∧
  users s' = users s ∧ swipes s' = swipes s ++ [mkSwipe A B action tSwipe] ∧
  ResSwipe r = mkSwipe A B action tSwipe.
Proof.
  intros Hok.
  destruct (ProcessSwipe_cases s A B action tSwipe tMatch) as [Hbad|(Hne & HA & HB)].
  { destruct (ProcessSwipe_invalid s A B action tSwipe tMatch Hbad) as [e He].
    congruence. }
  rewrite ProcessSwipe_valid in Hok by done. cbv zeta in Hok.
  destruct (_ && _); injection Hok as <- <-; done.
Qed.

(** The feed depends on the user map and on the requester's own swipes. *)
Lemma GetFeed_ext (s s' : InMemoryStore) (u : N) :
  users s' = users s → GetSwipesByUser s' u = GetSwipesByUser s u →
  GetFeed s' u = GetFeed s u.
Proof.
  intros Hus Hsw. unfold GetFeed, GetUser, GetAllUsers. by rewrite Hus, Hsw.
Qed.

Lemma swiped_on_snoc (s s' : InMemoryStore) (sw : Swipe) (a b : N) :
  swipes s' = swipes s ++ [sw] →
  swiped_on s' a b ↔ swiped_on s a b ∨ of_pair a b sw.
Proof.
  intros Hsw. unfold swiped_on, of_pair. rewrite Hsw. split.
  - intros (x & [Hin|Hin]%elem_of_app & Hp).
    + left. eauto.
    + apply list_elem_of_singleton in Hin as ->. by right.
  - intros [(x & Hin & Hp)|Hp].
    + exists x. split; [|done]. apply elem_of_app. by left.
    + exists sw. split; [|done]. apply elem_of_app. right. left.
Qed.

(** X6. Two registered users of the same zone, neither of whom has swiped
    on the other, are each in the other's feed. *)
Theorem GetFeed_mutually_visible (s : InMemoryStore) (a b : N) (ua ub : User) :
  reachable s → users s !! a = Some ua → users s !! b = Some ub → a ≠ b →
  ZoneID ua = ZoneID ub → ¬ swiped_on s a b → ¬ swiped_on s b a →
  ∃ feed_a feed_b,
    GetFeed s a = Ok feed_a ∧ GetFeed s b = Ok feed_b ∧
    ub ∈ feed_a ∧ ua ∈ feed_b.
Proof.
  intros Hr Ha Hb Hne Hz Hab Hba.
  pose proof (reachable_store_wf s Hr) as Hwf.
  pose proof (Hwf _ _ Ha) as Hida. pose proof (Hwf _ _ Hb) as Hidb.
  rewrite (GetFeed_registered s a ua), (GetFeed_registered s b ub) by done.
  eexists _, _. split_and!; [reflexivity..| |].
  - apply list_elem_of_filter. split; [|apply elem_of_GetAllUsers; by exists b].
    split_and!; [done|congruence|]. rewrite elem_of_seenSet. by rewrite Hidb.
  - apply list_elem_of_filter. split; [|apply elem_of_GetAllUsers; by exists a].
    split_and!; [done|congruence|]. rewrite elem_of_seenSet. by rewrite Hida.
Qed.

Lemma GetFeed_mutually_visible_witness :
  ∃ feed_a feed_b,
    GetFeed three_users 1 = Ok feed_a ∧ GetFeed three_users 2 = Ok feed_b ∧
    bob ∈ feed_a ∧ alice ∈ feed_b.
Proof.
  apply (GetFeed_mutually_visible three_users 1 2 alice bob).
  - eexists. reflexivity.
  - vm_compute. reflexivity.
  - vm_compute. reflexivity.
  - discriminate.
  - reflexivity.
  - intros (sw & Hin & _). vm_compute in Hin. inversion Hin.
  - intros (sw & Hin & _). vm_compute in Hin. inversion Hin.
Defined.

(** X7. Any recorded swipe hides its target, a PASS as much as a LIKE:
    after a successful [ProcessSwipe] of [A] on [B] with any action, and
    after any further history without a [Reset], [GetFeed] for [A] succeeds
    and has no user with the identifier [B]. *)
Theorem any_swipe_hides_from_feed
    (s s' : InMemoryStore) (A B : N) (action : string) (tSwipe tMatch : Z)
    (r : ProcessSwipeResult) (ops : list op) :
  ProcessSwipe s A B action tSwipe tMatch = (s', Ok r) →
  no_reset ops →
  ∃ feed, GetFeed (run s' ops) A = Ok feed ∧ ∀ v, v ∈ feed → ID v ≠ B.
Proof.
  intros Hok Hnr.
  apply ProcessSwipe_Ok_swipes in Hok as (Hne & HA & HB & Hus & Hsw & _).
  assert (HA' : is_Some (users (run s' ops) !! A)).
  { apply run_users; [done|]. by rewrite Hus. }
  destruct HA' as [ru Hru].
  assert (Hseen : swiped_on (run s' ops) A B).
  { destruct (run_swipes s' ops Hnr) as [k Hk].
    exists (mkSwipe A B action tSwipe). split; [|done].
    rewrite Hk, Hsw. apply elem_of_app. left. apply elem_of_app. right. left. }
  rewrite (GetFeed_registered _ _ ru) by done.
  eexists. split; [reflexivity|].
  intros v (Hp & _)%list_elem_of_filter Hid.
  destruct Hp as (_ & _ & Hns). apply Hns.
  apply elem_of_seenSet. by rewrite Hid.
Qed.

Lemma any_swipe_hides_from_feed_witness :
  ∃ feed,
    GetFeed (run (ProcessSwipe three_users 1 2 SwipeActionPass 10 11).1
               [OpProcessSwipe 2 1 SwipeActionLike 20 21]) 1 = Ok feed ∧
    ∀ v, v ∈ feed → ID v ≠ 2%N.
Proof.
  eapply (any_swipe_hides_from_feed three_users _ 1 2 SwipeActionPass 10 11).
  - vm_compute. reflexivity.
  - repeat constructor.
Defined.

(** [GetFeed] is one of the results the program can give. *)
Lemma GetFeed_may_return_GetFeed (s : InMemoryStore) (u : N) :
  GetFeed_may_return s u (GetFeed s u).
Proof. by exists (GetAllUsers s). Qed.

(** The result for a registered requester, whatever the order of the
    users. *)
Lemma GetFeed_from_registered (s : InMemoryStore) (u : N) (ru : User)
    (allUsers : list User) :
  users s !! u = Some ru →
  GetFeed_from s u allUsers =
  Ok (filter (passes ru u (build_seenSet (GetSwipesByUser s u))) allUsers).
Proof.
  intros Hu. unfold GetFeed_from, GetUser. rewrite Hu. cbv zeta.
  by rewrite feed_loop_filter.
Qed.

(** X8. A swipe changes no feed but the swiper's: whatever [ProcessSwipe]
    of [A] on [B] does, a call of [GetFeed] for any other requester, the
    swiped user included, fails after it exactly as before it or returns
    the same users, up to the order in which each call ranged over the
    user map. *)
Theorem GetFeed_unchanged_by_others_swipe
    (s : InMemoryStore) (A B u : N) (action : string) (tSwipe tMatch : Z)
    (res res' : result (list User)) :
  u ≠ A →
  GetFeed_may_return s u res →
  GetFeed_may_return (ProcessSwipe s A B action tSwipe tMatch).1 u res' →
  same_feed res res'.
Proof.
  intros Hu (all & Hall & ->) (all' & Hall' & ->).
  set (s' := (ProcessSwipe s A B action tSwipe tMatch).1) in *.
  assert (Hus : users s' = users s)
    by exact (proj1 (ProcessSwipe_store s A B action tSwipe tMatch)).
  assert (Hsw : GetSwipesByUser s' u = GetSwipesByUser s u).
  { subst s'.
    destruct (ProcessSwipe_cases s A B action tSwipe tMatch) as [Hbad|(Hne & HA & HB)].
    { by destruct (ProcessSwipe_invalid s A B action tSwipe tMatch Hbad) as [e ->]. }
    rewrite ProcessSwipe_valid by done. cbv zeta. unfold GetSwipesByUser.
    destruct (_ && _); simpl; rewrite filter_app, filter_cons_False, filter_nil,
      ?app_nil_r; simpl; congruence. }
  assert (Hperm : all ≡ₚ all').
  { rewrite Hall, Hall'. unfold GetAllUsers. by rewrite Hus. }
  destruct (users s !! u) as [ru|] eqn:Hru.
  - rewrite (GetFeed_from_registered s u ru) by done.
    rewrite (GetFeed_from_registered s' u ru) by (by rewrite Hus).
    simpl. by rewrite Hsw, Hperm.
  - unfold GetFeed_from, GetUser. rewrite Hus, Hru. done.
Qed.

Lemma GetFeed_unchanged_by_others_swipe_witness :
  same_feed (GetFeed three_users 2)
            (GetFeed (ProcessSwipe three_users 1 2 SwipeActionLike 10 11).1 2).
Proof.
  apply (GetFeed_unchanged_by_others_swipe three_users 1 2 2 SwipeActionLike 10 11).
  - discriminate.
  - apply GetFeed_may_return_GetFeed.
  - apply GetFeed_may_return_GetFeed.
Defined.

(** X9. A successful swipe of [A] on [B] removes from the feed of [A] the
    users with the identifier [B] and nothing else: a call of [GetFeed]
    for [A] after it succeeds and returns the users of a feed returned
    before it without those of identifier [B], up to the order in which
    each call ranged over the user map. *)
Theorem GetFeed_after_own_swipe
    (s s' : InMemoryStore) (A B : N) (action : string) (tSwipe tMatch : Z)
    (r : ProcessSwipeResult) (feed : list User) (res' : result (list User)) :
  ProcessSwipe s A B action tSwipe tMatch = (s', Ok r) →
  GetFeed_may_return s A (Ok feed) →
  GetFeed_may_return s' A res' →
  ∃ feed', res' = Ok feed' ∧ feed' ≡ₚ filter (λ v, ID v ≠ B) feed.
Proof.
  intros Hok (all & Hall & Hfeed) (all' & Hall' & ->).
  apply ProcessSwipe_Ok_swipes in Hok as (Hne & [ru HA] & HB & Hus & Hsw & _).
  rewrite (GetFeed_from_registered s A ru) in Hfeed by done.
  injection Hfeed as ->.
  rewrite (GetFeed_from_registered s' A ru) by (by rewrite Hus).
  eexists. split; [reflexivity|].
  assert (Hperm : all' ≡ₚ all).
  { rewrite Hall, Hall'. unfold GetAllUsers. by rewrite Hus. }
  rewrite Hperm, list_filter_filter.
  replace (filter (passes ru A (build_seenSet (GetSwipesByUser s' A))) all)
    with (filter (λ v, ID v ≠ B ∧ passes ru A (build_seenSet (GetSwipesByUser s A)) v)
            all); [done|].
  apply list_filter_iff. intros v.
  unfold passes. rewrite !elem_of_seenSet.
  rewrite (swiped_on_snoc s s' _ _ _ Hsw). unfold of_pair. simpl.
  split.
  - intros (HidB & Hz & Hid & Hns). split_and!; try done.
    intros [Hs|[_ Heq]]; [by apply Hns|]. by apply HidB.
  - intros (Hz & Hid & Hns). split_and!; try done.
    + intros Heq. apply Hns. right. done.
    + intros Hs. apply Hns. by left.
Qed.

Lemma GetFeed_after_own_swipe_witness :
  ∃ feed',
    GetFeed (ProcessSwipe three_users 1 2 SwipeActionPass 10 11).1 1 = Ok feed' ∧
    feed' ≡ₚ filter (λ v, ID v ≠ 2%N) [bob].
Proof.
  apply (GetFeed_after_own_swipe three_users
           (ProcessSwipe three_users 1 2 SwipeActionPass 10 11).1
           1 2 SwipeActionPass 10 11
           (mkResult (mkSwipe 1 2 SwipeActionPass 10) false None)).
  - vm_compute. reflexivity.
  - exists (GetAllUsers three_users). split; [done|]. vm_compute. reflexivity.
  - apply GetFeed_may_return_GetFeed.
Defined.

(** ** More invariants of histories *)

Lemma step_swipes_valid (s : InMemoryStore) (o : op) :
  (∀ sw, sw ∈ swipes s → swipe_valid s sw) →
  ∀ sw, sw ∈ swipes (step s o) → swipe_valid (step s o) sw.
Proof.
  intros Hinv. destruct o as [user| A B action tS tM | | |]; simpl; try done.
  - intros sw Hin. destruct (Hinv sw Hin) as (Hne & H1 & H2).
    split_and!; [done|by apply (step_users s (OpAddUser user))..].
  - destruct (ProcessSwipe_cases s A B action tS tM) as [Hbad|(Hne & HA & HB)].
    { by destruct (ProcessSwipe_invalid s A B action tS tM Hbad) as [e ->]. }
    rewrite ProcessSwipe_valid by done. cbv zeta.
    assert (Hall : ∀ sw, sw ∈ swipes s ++ [mkSwipe A B action tS] →
                         SwiperID sw ≠ SwipedID sw ∧
                         is_Some (users s !! SwiperID sw) ∧
                         is_Some (users s !! SwipedID sw)).
    { intros sw [Hin|Hin]%elem_of_app; [by apply Hinv|].
      apply list_elem_of_singleton in Hin as ->. done. }
    by destruct (_ && _).
  - intros sw Hin. by apply elem_of_nil in Hin.
Qed.

Lemma reachable_swipe_valid (s : InMemoryStore) :
  reachable s → ∀ sw, sw ∈ swipes s → swipe_valid s sw.
Proof.
  intros Hr. induction Hr as [|s o _ IH] using reachable_ind.
  - intros sw Hin. by apply elem_of_nil in Hin.
  - by apply step_swipes_valid.
Qed.

(** X10. The swipe log of the service never holds a self-swipe or a swipe
    by or on an unregistered user, and the match log never holds a match of
    a user with itself. *)
Theorem reachable_swipes_valid (s : InMemoryStore) :
  reachable s →
  (∀ sw, sw ∈ swipes s → swipe_valid s sw) ∧
  (∀ m, m ∈ matches s → User1ID m ≠ User2ID m).
Proof.
  intros Hr.
  pose proof (reachable_swipe_valid s Hr) as Hsw.
  split; [done|].
  intros m Hm Heq.
  destruct (reachable_matches_backed s Hr m Hm) as ((sw & Hin & H1 & H2 & _) & _).
  destruct (Hsw sw Hin) as [Hne _]. congruence.
Qed.

Lemma reachable_swipes_valid_witness :
  swipe_valid mutual_like (mkSwipe 2 1 SwipeActionLike 20) ∧
  ∀ m, m ∈ matches mutual_like → User1ID m ≠ User2ID m.
Proof.
  assert (Hr : reachable mutual_like) by (eexists; reflexivity).
  destruct (reachable_swipes_valid mutual_like Hr) as [Hsw Hm].
  split; [|exact Hm].
  apply Hsw. replace (swipes mutual_like)
    with [mkSwipe 1 2 SwipeActionLike 10; mkSwipe 2 1 SwipeActionLike 20]
    by (vm_compute; reflexivity).
  right. left.
Defined.

Lemma first_swipe_is_like_mono (s s' : InMemoryStore) (a b : N) :
  swipes s `prefix_of` swipes s' →
  first_swipe_is_like s a b → first_swipe_is_like s' a b.
Proof.
  intros [k Hk] (pre & rev & post & Hl & Hp & Hpre & Hact).
  exists pre, rev, (post ++ k). split_and!; [|done..].
  rewrite Hk, Hl. by rewrite <- app_assoc.
Qed.

Lemma first_swipe_is_like_snoc (s s' : InMemoryStore) (sw : Swipe) (a b : N) :
  swipes s' = swipes s ++ [sw] →
  first_swipe_is_like s' a b →
  first_swipe_is_like s a b ∨ (of_pair a b sw ∧ Action sw = SwipeActionLike).
Proof.
  intros Hsw Hfl. apply first_swipe_is_likeb_true in Hfl.
  unfold first_swipe_is_likeb, FindSwipe in Hfl.
  rewrite Hsw, find_swipe_app in Hfl.
  destruct (find_swipe (swipes s) a b) as [rev|] eqn:Hf.
  - left. apply first_swipe_is_likeb_true.
    unfold first_swipe_is_likeb, FindSwipe. by rewrite Hf.
  - right. rewrite find_swipe_cons in Hfl.
    case_decide; [|done]. apply bool_decide_eq_true in Hfl. done.
Qed.

Lemma matched_pair_mono (s s' : InMemoryStore) (a b : N) :
  matches s `prefix_of` matches s' → matched_pair s a b → matched_pair s' a b.
Proof.
  intros [k Hk] (m & Hin & Hm). exists m. split; [|done].
  rewrite Hk. apply elem_of_app. by left.
Qed.

Lemma step_mutual_like_matched (s : InMemoryStore) (o : op) :
  (∀ a b, first_swipe_is_like s a b → first_swipe_is_like s b a → matched_pair s a b) →
  ∀ a b, first_swipe_is_like (step s o) a b → first_swipe_is_like (step s o) b a →
         matched_pair (step s o) a b.
Proof.
  intros Hinv. destruct o as [user| A B action tS tM | | |]; simpl; try done.
  - destruct (ProcessSwipe_cases s A B action tS tM) as [Hbad|(Hne & HA & HB)].
    { by destruct (ProcessSwipe_invalid s A B action tS tM Hbad) as [e ->]. }
    intros a b Hab Hba.
    set (s' := (ProcessSwipe s A B action tS tM).1) in *.
    assert (Hsw : swipes s' = swipes s ++ [mkSwipe A B action tS]).
    { subst s'. rewrite ProcessSwipe_valid by done. cbv zeta. by destruct (_ && _). }
    assert (Hpre : matches s `prefix_of` matches s').
    { by destruct (ProcessSwipe_store s A B action tS tM) as (_ & _ & ?). }
    assert (Hnew : action = SwipeActionLike → first_swipe_is_like s B A →
                   mkMatch A B tM ∈ matches s').
    { intros Hact Hrev. subst s'. rewrite ProcessSwipe_valid by done. cbv zeta.
      apply first_swipe_is_likeb_true in Hrev. rewrite Hrev.
      rewrite bool_decide_eq_true_2 by done. simpl.
      apply elem_of_app. right. left. }
    destruct (first_swipe_is_like_snoc s s' _ a b Hsw Hab) as [Hab'|[[Ha Hb] Hact]];
      destruct (first_swipe_is_like_snoc s s' _ b a Hsw Hba) as [Hba'|[[Ha' Hb'] Hact']];
      simpl in *.
    + apply (matched_pair_mono s); [done|]. by apply Hinv.
    + subst a b. exists (mkMatch A B tM). split; [by apply Hnew|]. by right.
    + subst a b. exists (mkMatch A B tM). split; [by apply Hnew|]. by left.
    + congruence.
  - intros a b (pre & rev & post & Hl & _). by destruct pre.
Qed.

(** X11. Match detection misses no pair: in every state of the service, if
    the first swipe of [a] on [b] and the first swipe of [b] on [a] are
    both a LIKE, the match log has a match of the two, and
    [GetMatchesForUser] returns it to both. *)
Theorem mutual_first_likes_are_matched (s : InMemoryStore) (a b : N) :
  reachable s → first_swipe_is_like s a b → first_swipe_is_like s b a →
  matched_pair s a b ∧
  ∃ m, m ∈ GetMatchesForUser s a ∧ m ∈ GetMatchesForUser s b.
Proof.
  intros Hr Hab Hba.
  assert (Hm : matched_pair s a b).
  { revert a b Hab Hba. induction Hr as [|s o _ IH] using reachable_ind.
    - intros a b (pre & rev & post & Hl & _). by destruct pre.
    - by apply step_mutual_like_matched. }
  split; [done|].
  destruct Hm as (m & Hin & Hm). exists m.
  unfold GetMatchesForUser. rewrite !list_elem_of_filter. tauto.
Qed.

Lemma mutual_first_likes_are_matched_witness :
  matched_pair mutual_like 1 2 ∧
  ∃ m, m ∈ GetMatchesForUser mutual_like 1 ∧ m ∈ GetMatchesForUser mutual_like 2.
Proof.
  apply (mutual_first_likes_are_matched mutual_like 1 2).
  - eexists. reflexivity.
  - exists [], (mkSwipe 1 2 SwipeActionLike 10), [mkSwipe 2 1 SwipeActionLike 20].
    split_and!; [vm_compute; reflexivity|split; reflexivity| |reflexivity].
    intros x Hx. inversion Hx.
  - exists [mkSwipe 1 2 SwipeActionLike 10], (mkSwipe 2 1 SwipeActionLike 20), [].
    split_and!; [vm_compute; reflexivity|split; reflexivity| |reflexivity].
    intros x Hx. apply list_elem_of_singleton in Hx as ->.
    intros [H _]. discriminate H.
Defined.

(** X12. In every state of the service a user is stored under its own
    identifier: [GetUser] returns a user with the identifier it was asked
    for, and no two users of [GetAllUsers] share an identifier. *)
Theorem reachable_users_keyed_by_ID (s : InMemoryStore) :
  reachable s →
  (∀ id u, GetUser s id = Some u → ID u = id) ∧
  NoDup (ID <$> GetAllUsers s).
Proof.
  intros Hr. pose proof (reachable_store_wf s Hr) as Hwf.
  split; [exact Hwf|].
  unfold GetAllUsers. rewrite <- list_fmap_compose.
  rewrite (list_fmap_ext _ fst (map_to_list (users s))).
  - apply NoDup_fst_map_to_list.
  - intros i [k v] Hkv. simpl.
    apply list_elem_of_lookup_2, elem_of_map_to_list in Hkv. by apply Hwf.
Qed.

Lemma reachable_users_keyed_by_ID_witness :
  (∀ id u, GetUser three_users id = Some u → ID u = id) ∧
  NoDup (ID <$> GetAllUsers three_users).
Proof.
  apply (reachable_users_keyed_by_ID three_users). eexists. reflexivity.
Defined.

Lemma stored_AddUser (s : InMemoryStore) (user v : User) :
  users s !! ID user = None →
  stored (AddUser s user) v ↔ stored s v ∨ v = user.
Proof.
  intros Hfresh. unfold stored. simpl. split.
  - intros [k Hk]. destruct (decide (ID user = k)) as [<-|Hne].
    + rewrite lookup_insert_eq in Hk. right. congruence.
    + rewrite lookup_insert_ne in Hk by done. left. eauto.
  - intros [[k Hk]| ->].
    + exists k. rewrite lookup_insert_ne; [done|]. congruence.
    + exists (ID user). apply lookup_insert_eq.
Qed.

(** X13. Registering a user under a new identifier adds that user to the
    feed of every registered user of the same zone and changes no feed
    otherwise: the members of each feed are the former ones and, in the
    zone of the newcomer, the newcomer. *)
Theorem GetFeed_after_AddUser
    (s : InMemoryStore) (user : User) (u : N) (ru : User) (feed : list User) :
  reachable s → users s !! ID user = None → users s !! u = Some ru →
  GetFeed s u = Ok feed →
  ∃ feed', GetFeed (AddUser s user) u = Ok feed' ∧
           ∀ v, v ∈ feed' ↔ v ∈ feed ∨ (v = user ∧ ZoneID user = ZoneID ru).
Proof.
  intros Hr Hfresh Hu Hfeed.
  assert (Hne : ID user ≠ u) by congruence.
  assert (Hunseen : ¬ swiped_on s u (ID user)).
  { intros (sw & Hin & _ & Hsw).
    destruct (reachable_swipe_valid s Hr sw Hin) as (_ & _ & [x Hx]). congruence. }
  rewrite (GetFeed_registered s u ru) in Hfeed by done. injection Hfeed as <-.
  rewrite (GetFeed_registered (AddUser s user) u ru)
    by (simpl; by rewrite lookup_insert_ne).
  eexists. split; [reflexivity|]. intros v.
  rewrite !list_elem_of_filter, !elem_of_GetAllUsers, (stored_AddUser s) by done.
  unfold passes. rewrite !elem_of_seenSet. unfold swiped_on. simpl.
  split.
  - intros ((Hz & Hid & Hns) & [Hst| ->]); [by left|by right].
  - intros [((Hz & Hid & Hns) & Hst)|[-> Hz]]; [by split; [|left]|].
    split; [|by right]. done.
Qed.

Lemma GetFeed_after_AddUser_witness :
  ∃ feed', GetFeed (AddUser three_users (mkUser 4 "Dan" 30 "other" "zone-x")) 1 = Ok feed' ∧
           ∀ v, v ∈ feed' ↔
                v ∈ [bob] ∨ (v = mkUser 4 "Dan" 30 "other" "zone-x" ∧
                             ZoneID (mkUser 4 "Dan" 30 "other" "zone-x") = ZoneID alice).
Proof.
  apply (GetFeed_after_AddUser three_users (mkUser 4 "Dan" 30 "other" "zone-x") 1 alice).
  - eexists. reflexivity.
  - vm_compute. reflexivity.
  - vm_compute. reflexivity.
  - vm_compute. reflexivity.
Defined.

(** X14. The result of a successful [ProcessSwipe] agrees with the store:
    the returned swipe is the last of the swipe log, a match is returned
    exactly when [Matched] is set, a returned match is the last of the
    match log, names the swiper first and the swiped user second and is in
    the matches of both, and without a returned match the match log is as
    before. *)
Theorem ProcessSwipe_result_consistent
    (s s' : InMemoryStore) (A B : N) (action : string) (tSwipe tMatch : Z)
    (r : ProcessSwipeResult) :
  ProcessSwipe s A B action tSwipe tMatch = (s', Ok r) →
  last (swipes s') = Some (ResSwipe r) ∧
  (Matched r = true ↔ is_Some (ResMatch r)) ∧
  (∀ m, ResMatch r = Some m →
        last (matches s') = Some m ∧ matches s' = matches s ++ [m] ∧
        User1ID m = A ∧ User2ID m = B ∧
        m ∈ GetMatchesForUser s' A ∧ m ∈ GetMatchesForUser s' B) ∧
  (ResMatch r = None → matches s' = matches s).
Proof.
  intros Hok.
  destruct (ProcessSwipe_cases s A B action tSwipe tMatch) as [Hbad|(Hne & HA & HB)].
  { destruct (ProcessSwipe_invalid s A B action tSwipe tMatch Hbad) as [e He].
    congruence. }
  rewrite ProcessSwipe_valid in Hok by done. cbv zeta in Hok.
  destruct (_ && _); injection Hok as <- <-; simpl.
  - split_and!; [apply last_snoc| |intros m [= <-]|done].
    + split; [eauto|done].
    + unfold GetMatchesForUser. simpl.
      split_and!; [apply last_snoc|done..| |];
        apply list_elem_of_filter; (split; [simpl; auto|]);
        apply elem_of_app; right; left.
  - split_and!; [apply last_snoc| |done|done].
    split; [done|]. by intros [m Hm].
Qed.

Lemma ProcessSwipe_result_consistent_witness :
  last (swipes mutual_like) = Some (mkSwipe 2 1 SwipeActionLike 20) ∧
  last (matches mutual_like) = Some (mkMatch 2 1 21).
Proof.
  assert (H : ProcessSwipe (ProcessSwipe three_users 1 2 SwipeActionLike 10 11).1
                2 1 SwipeActionLike 20 21 =
              (run three_users [OpProcessSwipe 1 2 SwipeActionLike 10 11;
                                OpProcessSwipe 2 1 SwipeActionLike 20 21],
               Ok (mkResult (mkSwipe 2 1 SwipeActionLike 20) true
                     (Some (mkMatch 2 1 21)))))
    by (vm_compute; reflexivity).
  destruct (ProcessSwipe_result_consistent _ _ _ _ _ _ _ _ H) as (Hlast & _ & Hm & _).
  split; [exact Hlast|]. exact (proj1 (Hm _ eq_refl)).
Defined.

(** X15. [ProcessSwipe] does not check the action: between two different
    registered users a call with any action other than LIKE, PASS or an
    unrecognised text alike, succeeds, records the swipe with that action
    and creates no match. *)
Theorem ProcessSwipe_accepts_any_action
    (s : InMemoryStore) (A B : N) (action : string) (tSwipe tMatch : Z) :
  A ≠ B → is_Some (users s !! A) → is_Some (users s !! B) →
  action ≠ SwipeActionLike →
  ProcessSwipe s A B action tSwipe tMatch =
  (mkStore (users s) (swipes s ++ [mkSwipe A B action tSwipe]) (matches s),
   Ok (mkResult (mkSwipe A B action tSwipe) false None)).
Proof.
  intros Hne HA HB Hact. rewrite ProcessSwipe_valid by done. cbv zeta.
  by rewrite bool_decide_eq_false_2.
Qed.

Lemma ProcessSwipe_accepts_any_action_witness :
  IsValid "SUPERLIKE" = false ∧
  ProcessSwipe three_users 1 2 "SUPERLIKE" 10 11 =
  (mkStore (users three_users) [mkSwipe 1 2 "SUPERLIKE" 10] [],
   Ok (mkResult (mkSwipe 1 2 "SUPERLIKE" 10) false None)).
Proof.
  split; [reflexivity|].
  apply (ProcessSwipe_accepts_any_action three_users 1 2 "SUPERLIKE" 10 11).
  - discriminate.
  - exists alice. vm_compute. reflexivity.
  - exists bob. vm_compute. reflexivity.
  - discriminate.
Defined.

(** X16. A first swipe that is not a LIKE rules the match out for good:
    when the first swipe of [A] on [B] has any other action, then after any
    history without a [Reset], also one in which [A] likes [B] later, a
    LIKE of [B] on [A] succeeds without a match. *)
Theorem first_non_like_blocks_match
    (s s' : InMemoryStore) (A B : N) (action : string) (tSwipe tMatch t3 t4 : Z)
    (r : ProcessSwipeResult) (ops : list op) :
  ProcessSwipe s A B action tSwipe tMatch = (s', Ok r) →
  action ≠ SwipeActionLike → FindSwipe s A B = None → no_reset ops →
  ∃ s'' r', ProcessSwipe (run s' ops) B A SwipeActionLike t3 t4 = (s'', Ok r') ∧
            Matched r' = false ∧ ResMatch r' = None ∧
            matches s'' = matches (run s' ops).
Proof.
  intros Hok Hact Hnone Hnr.
  apply ProcessSwipe_Ok_swipes in Hok as (Hne & HA & HB & Hus & Hsw & _).
  assert (Hfirst : FindSwipe (run s' ops) A B = Some (mkSwipe A B action tSwipe)).
  { apply (FindSwipe_prefix s'); [by apply run_swipes|].
    unfold FindSwipe in *. rewrite Hsw, find_swipe_app, Hnone, find_swipe_cons.
    by rewrite decide_True. }
  assert (Hb : first_swipe_is_likeb (run s' ops) A B = false).
  { unfold first_swipe_is_likeb. rewrite Hfirst. simpl.
    by rewrite bool_decide_eq_false_2. }
  rewrite ProcessSwipe_valid;
    [|congruence|apply run_users; [done|by rewrite Hus]..].
  cbv zeta. rewrite Hb, andb_false_r.
  eexists _, _. split; [reflexivity|]. done.
Qed.

Lemma first_non_like_blocks_match_witness :
  ∃ s'' r',
    ProcessSwipe
      (run (ProcessSwipe three_users 1 2 SwipeActionPass 10 11).1
           [OpProcessSwipe 1 2 SwipeActionLike 20 21])
      2 1 SwipeActionLike 30 31 = (s'', Ok r') ∧
    Matched r' = false ∧ ResMatch r' = None ∧ matches s'' = [].
Proof.
  destruct (first_non_like_blocks_match three_users
              (ProcessSwipe three_users 1 2 SwipeActionPass 10 11).1
              1 2 SwipeActionPass 10 11 30 31
              (mkResult (mkSwipe 1 2 SwipeActionPass 10) false None)
              [OpProcessSwipe 1 2 SwipeActionLike 20 21])
    as (s'' & r' & H1 & H2 & H3 & H4).
  - vm_compute. reflexivity.
  - discriminate.
  - vm_compute. reflexivity.
  - repeat constructor.
  - exists s'', r'. split_and!; [exact H1|exact H2|exact H3|].
    rewrite H4. vm_compute. reflexivity.
Defined.

(** ** Requests and envelopes *)

(** Membership of a message in a list of messages that is known in full. *)
Ltac solve_message_mem :=
  split;
  [ intros Hin; apply list_elem_of_In in Hin; simpl in Hin;
    first [done | lia | (exfalso; intuition discriminate)]
  | intros HQ;
    first [ (exfalso; (done || lia))
          | (apply list_elem_of_In; simpl; auto 10) ] ].

(** A list of messages that is known in full is empty or not. *)
Ltac solve_no_message :=
  split;
  [ intros Hnil; first [discriminate Hnil | (split_and!; (done || lia))]
  | intros Hall; first [done | (exfalso; destruct_and!; (done || lia))] ].

(** X17. [CreateUserRequest.Validate] reports every invalid field and only
    those, in the order name, age, gender, zone: it returns no message
    exactly when the name, the gender and the zone are not empty and the
    age is positive, and each message is there exactly when its field is
    invalid. *)
Theorem CreateUserRequest_Validate_spec (r : CreateUserRequest.t) :
  (CreateUserRequest.Validate r = [] ↔
   CreateUserRequest.Name r ≠ "" ∧ (0 < CreateUserRequest.Age r)%Z ∧
   CreateUserRequest.Gender r ≠ "" ∧ CreateUserRequest.ZoneID r ≠ "") ∧
  ("name is required" ∈ CreateUserRequest.Validate r ↔ CreateUserRequest.Name r = "") ∧
  ("age must be a positive integer" ∈ CreateUserRequest.Validate r ↔
   (CreateUserRequest.Age r ≤ 0)%Z) ∧
  ("gender is required" ∈ CreateUserRequest.Validate r ↔
   CreateUserRequest.Gender r = "") ∧
  ("zone_id is required" ∈ CreateUserRequest.Validate r ↔
   CreateUserRequest.ZoneID r = "") ∧
  CreateUserRequest.Validate r `sublist_of`
    ["name is required"; "age must be a positive integer";
     "gender is required"; "zone_id is required"].
Proof.
  unfold CreateUserRequest.Validate. cbv zeta.
  repeat case_bool_decide; simpl;
    (split_and!;
     [solve_no_message|solve_message_mem..|repeat constructor]).
Qed.

Lemma IsValid_true (a : string) :
  IsValid a = true ↔ a = "LIKE" ∨ a = "PASS".
Proof.
  unfold IsValid, SwipeActionLike, SwipeActionPass.
  rewrite orb_true_iff, !bool_decide_eq_true. done.
Qed.

(** X18. [CreateSwipeRequest.Validate] returns what [uuid.Parse] gave for
    the two identifiers and the action text as it is, and reports no error
    exactly when both identifiers parse and the action is the text LIKE or
    the text PASS, in upper case; its messages come in the order swiper,
    swiped, action. *)
Theorem CreateSwipeRequest_Validate_spec
    (Parse : string → N * bool) (r : CreateSwipeRequest.t) :
  (CreateSwipeRequest.Validate Parse r).1.1.1 = (Parse (CreateSwipeRequest.SwiperID r)).1 ∧
  (CreateSwipeRequest.Validate Parse r).1.1.2 = (Parse (CreateSwipeRequest.SwipedID r)).1 ∧
  (CreateSwipeRequest.Validate Parse r).1.2 = CreateSwipeRequest.Action r ∧
  ((CreateSwipeRequest.Validate Parse r).2 = [] ↔
   (Parse (CreateSwipeRequest.SwiperID r)).2 = true ∧
   (Parse (CreateSwipeRequest.SwipedID r)).2 = true ∧
   (CreateSwipeRequest.Action r = "LIKE" ∨ CreateSwipeRequest.Action r = "PASS")) ∧
  (CreateSwipeRequest.Validate Parse r).2 `sublist_of`
    ["swiper_id must be a valid UUID"; "swiped_id must be a valid UUID";
     "action must be LIKE or PASS"] ∧
  IsValid "like" = false.
Proof.
  unfold CreateSwipeRequest.Validate.
  destruct (Parse (CreateSwipeRequest.SwiperID r)) as [a oka].
  destruct (Parse (CreateSwipeRequest.SwipedID r)) as [b okb].
  pose proof (IsValid_true (CreateSwipeRequest.Action r)) as Hv.
  destruct (IsValid (CreateSwipeRequest.Action r)); destruct oka, okb; cbn;
    (split_and!;
     [reflexivity|reflexivity|reflexivity| |repeat constructor|vm_compute; reflexivity]);
    (split;
     [ intros Hnil;
       first [discriminate Hnil | (split_and!; [reflexivity|reflexivity|by apply Hv])]
     | intros (H1 & H2 & H3);
       first [reflexivity | discriminate H1 | discriminate H2
             | (apply Hv in H3; discriminate H3)] ]).
Qed.

Lemma foldl_snoc_fmap {A B : Type} (f : A → B) (acc : list B) (l : list A) :
  foldl (λ acc x, acc ++ [f x]) acc l = acc ++ (f <$> l).
Proof.
  revert acc. induction l as [|x l IH]; intros acc; simpl.
  - by rewrite app_nil_r.
  - rewrite IH. by rewrite <- app_assoc.
Qed.

(** X19. [NewErrorResponse] keeps the messages: the envelope has one error
    per message, in the same order and with the same text, nil data and
    empty metadata. [NewSuccessResponse] has no error, the data it was
    given and the metadata it was given, empty when that was nil. *)
Theorem envelope_constructors
    (messages : list string) (data : payload) (meta : gmap string Z) :
  Message <$> Errors (NewErrorResponse messages) = messages ∧
  List.length (Errors (NewErrorResponse messages)) = List.length messages ∧
  Data (NewErrorResponse messages) = DataNil ∧
  Meta (NewErrorResponse messages) = ∅ ∧
  NewSuccessResponse data None = mkAPIResponse data ∅ [] ∧
  NewSuccessResponse data (Some meta) = mkAPIResponse data meta [].
Proof.
  unfold NewErrorResponse, NewSuccessResponse. simpl.
  rewrite foldl_snoc_fmap. simpl.
  split_and!; try done.
  - rewrite <- list_fmap_compose. apply list_fmap_id.
  - by rewrite length_fmap.
Qed.

(** ** Handlers *)

Lemma writeError_fields (st : Z) (messages : list string) :
  status (writeError st messages) = st ∧
  Errors (body (writeError st messages)) = mkAPIError <$> messages ∧
  Data (body (writeError st messages)) = DataNil ∧
  Meta (body (writeError st messages)) = ∅.
Proof.
  unfold writeError, NewErrorResponse. cbn [status body Errors Data Meta].
  by rewrite foldl_snoc_fmap.
Qed.

Lemma GetFeed_unknown (s : InMemoryStore) (u : N) :
  users s !! u = None →
  GetFeed s u = Err (ErrorString ("user " +:+ UUID_String u +:+ " not found")).
Proof. intros Hu. unfold GetFeed, GetUser. by rewrite Hu. Qed.

Lemma GetFeed_known (s : InMemoryStore) (u : N) :
  is_Some (users s !! u) → ∃ feed, GetFeed s u = Ok feed.
Proof. intros [ru Hu]. unfold GetFeed, GetUser. rewrite Hu. eauto. Qed.

(** Closes a goal about the status written in one branch of a handler. *)
Ltac solve_status :=
  unfold StatusOK, StatusCreated, StatusBadRequest, StatusNotFound,
    StatusUnprocessableEntity, StatusInternalServerError in *;
  repeat match goal with
         | |- _ ∧ _ => split
         | |- _ ↔ _ => split
         | |- _ → _ => intros ?
         end;
  destruct_and?; simplify_eq/=; try done;
  try (exfalso; destruct_or?; simplify_eq/=; done);
  try (exfalso;
       repeat match goal with H : is_Some _ |- _ => destruct H end;
       destruct_or?; congruence);
  eauto.

(** X20. The feed handler answers 200 exactly when the parameter is not
    empty, parses and names a registered user, and then carries the feed of
    [GetFeed] with its length under [count]; it answers 404, with the text
    of the service's error, exactly when the identifier parses and is not
    registered, and 422 for an empty or unparsable parameter. *)
Theorem FeedHandler_GetFeed_spec
    (Parse : string → N * bool) (s : InMemoryStore) (userIDStr : string) :
  (status (FeedHandler_GetFeed Parse s userIDStr) = 200%Z ↔
   userIDStr ≠ "" ∧ (Parse userIDStr).2 = true ∧
   is_Some (users s !! (Parse userIDStr).1)) ∧
  (status (FeedHandler_GetFeed Parse s userIDStr) = 404%Z ↔
   userIDStr ≠ "" ∧ (Parse userIDStr).2 = true ∧
   users s !! (Parse userIDStr).1 = None) ∧
  (status (FeedHandler_GetFeed Parse s userIDStr) = 422%Z ↔
   userIDStr = "" ∨ (Parse userIDStr).2 = false) ∧
  (status (FeedHandler_GetFeed Parse s userIDStr) = 200%Z →
   ∃ feed, GetFeed s (Parse userIDStr).1 = Ok feed ∧
           Data (body (FeedHandler_GetFeed Parse s userIDStr)) = DataFeed feed ∧
           Meta (body (FeedHandler_GetFeed Parse s userIDStr)) !! "count" =
             Some (Z.of_nat (List.length feed)) ∧
           Errors (body (FeedHandler_GetFeed Parse s userIDStr)) = []) ∧
  (status (FeedHandler_GetFeed Parse s userIDStr) = 404%Z →
   Message <$> Errors (body (FeedHandler_GetFeed Parse s userIDStr)) =
   ["user " +:+ UUID_String (Parse userIDStr).1 +:+ " not found"]).
Proof.
  unfold FeedHandler_GetFeed.
  case_bool_decide as Hempty.
  { destruct (writeError_fields StatusUnprocessableEntity
                ["user_id query parameter is required"]) as (-> & _).
    solve_status. }
  destruct (Parse userIDStr) as [userID ok]. destruct ok; cbn [negb fst snd].
  2:{ destruct (writeError_fields StatusUnprocessableEntity
                  ["user_id must be a valid UUID"]) as (-> & _).
      solve_status. }
  destruct (users s !! userID) as [ru|] eqn:Hu.
  - destruct (GetFeed_known s userID) as [feed Hfeed]; [by rewrite Hu|].
    rewrite Hfeed. unfold writeSuccess, NewSuccessResponse, count_meta.
    cbn [status body Data Meta Errors].
    split_and!; try solve_status.
  - rewrite (GetFeed_unknown s userID Hu). cbn [Error].
    destruct (writeError_fields StatusNotFound
                ["user " +:+ UUID_String userID +:+ " not found"]) as (-> & -> & _).
    split_and!; try solve_status.
Qed.

(** X21. The matches handler checks the user before it reads the match
    log: it answers 200 exactly when the parameter is not empty, parses
    and names a registered user, and then carries the list of
    [GetMatchesForUser] with its length under [count]; an identifier that
    parses and is not registered gets 404, whatever the match log holds. *)
Theorem SwipeHandler_GetMatches_spec
    (Parse : string → N * bool) (s : InMemoryStore) (userIDStr : string) :
  (status (SwipeHandler_GetMatches Parse s userIDStr) = 200%Z ↔
   userIDStr ≠ "" ∧ (Parse userIDStr).2 = true ∧
   is_Some (users s !! (Parse userIDStr).1)) ∧
  (status (SwipeHandler_GetMatches Parse s userIDStr) = 404%Z ↔
   userIDStr ≠ "" ∧ (Parse userIDStr).2 = true ∧
   users s !! (Parse userIDStr).1 = None) ∧
  (status (SwipeHandler_GetMatches Parse s userIDStr) = 422%Z ↔
   userIDStr = "" ∨ (Parse userIDStr).2 = false) ∧
  (status (SwipeHandler_GetMatches Parse s userIDStr) = 200%Z →
   Data (body (SwipeHandler_GetMatches Parse s userIDStr)) =
     DataMatches (GetMatchesForUser s (Parse userIDStr).1) ∧
   Meta (body (SwipeHandler_GetMatches Parse s userIDStr)) !! "count" =
     Some (Z.of_nat (List.length (GetMatchesForUser s (Parse userIDStr).1))) ∧
   Errors (body (SwipeHandler_GetMatches Parse s userIDStr)) = []).
Proof.
  unfold SwipeHandler_GetMatches.
  case_bool_decide as Hempty.
  { destruct (writeError_fields StatusUnprocessableEntity
                ["user_id query parameter is required"]) as (-> & _).
    solve_status. }
  destruct (Parse userIDStr) as [userID ok]. destruct ok; cbn [negb fst snd].
  2:{ destruct (writeError_fields StatusUnprocessableEntity
                  ["user_id must be a valid UUID"]) as (-> & _).
      solve_status. }
  unfold GetUser. destruct (users s !! userID) as [ru|] eqn:Hu.
  - unfold writeSuccess, NewSuccessResponse, count_meta.
    cbn [status body Data Meta Errors].
    split_and!; try solve_status.
  - destruct (writeError_fields StatusNotFound ["user not found"]) as (-> & _).
    split_and!; try solve_status.
Qed.

(** X22. The user handler never answers 422: a path value that does not
    parse gets 404 like an unknown identifier, and the answer is 200, with
    the stored user as data, exactly when the value parses and names a
    registered user. *)
Theorem UserHandler_GetUser_spec
    (Parse : string → N * bool) (s : InMemoryStore) (idStr : string) :
  (status (UserHandler_GetUser Parse s idStr) = 200%Z ∨
   status (UserHandler_GetUser Parse s idStr) = 404%Z) ∧
  (status (UserHandler_GetUser Parse s idStr) = 200%Z ↔
   (Parse idStr).2 = true ∧ is_Some (users s !! (Parse idStr).1)) ∧
  (∀ user, users s !! (Parse idStr).1 = Some user → (Parse idStr).2 = true →
           UserHandler_GetUser Parse s idStr =
           mkResponse 200 (mkAPIResponse (DataUser user) ∅ [])) ∧
  (status (UserHandler_GetUser Parse s idStr) = 404%Z →
   Message <$> Errors (body (UserHandler_GetUser Parse s idStr)) = ["user not found"]).
Proof.
  unfold UserHandler_GetUser.
  destruct (Parse idStr) as [userID ok]. destruct ok; cbn [negb fst snd].
  2:{ destruct (writeError_fields StatusNotFound ["user not found"]) as (-> & -> & _).
      split_and!; try solve_status. }
  unfold GetUser. destruct (users s !! userID) as [ru|] eqn:Hu.
  - unfold writeSuccess, NewSuccessResponse.
    cbn [status body Data Meta Errors].
    split_and!; try solve_status.
  - destruct (writeError_fields StatusNotFound ["user not found"]) as (-> & -> & _).
    split_and!; try solve_status.
Qed.

(** X23. Creating a user and reading it back: a decoded request that
    passes [Validate] is answered 201, the store gains under the new
    identifier a user with the four fields of the request, the logs and
    the other users are untouched, and the user handler then answers 200
    with that user for any text that parses to the new identifier. A body
    that does not decode or does not pass [Validate] is answered 422 and
    leaves the store as it was. *)
Theorem UserHandler_CreateUser_spec
    (Parse : string → N * bool) (s : InMemoryStore)
    (decoded : option CreateUserRequest.t) (newID : N) :
  (∀ req, decoded = Some req → CreateUserRequest.Validate req = [] →
     let user := mkUser newID (CreateUserRequest.Name req) (CreateUserRequest.Age req)
                   (CreateUserRequest.Gender req) (CreateUserRequest.ZoneID req) in
     UserHandler_CreateUser s decoded newID =
       (AddUser s user, mkResponse 201 (mkAPIResponse (DataUser user) ∅ [])) ∧
     GetUser (UserHandler_CreateUser s decoded newID).1 newID = Some user ∧
     (∀ idStr, Parse idStr = (newID, true) →
        UserHandler_GetUser Parse (UserHandler_CreateUser s decoded newID).1 idStr =
        mkResponse 200 (mkAPIResponse (DataUser user) ∅ []))) ∧
  (decoded = None ∨ (∃ req, decoded = Some req ∧ CreateUserRequest.Validate req ≠ []) →
   (UserHandler_CreateUser s decoded newID).1 = s ∧
   status (UserHandler_CreateUser s decoded newID).2 = 422%Z ∧
   Errors (body (UserHandler_CreateUser s decoded newID).2) ≠ []) ∧
  (∀ req, decoded = Some req → CreateUserRequest.Validate req ≠ [] →
     Message <$> Errors (body (UserHandler_CreateUser s decoded newID).2) =
     CreateUserRequest.Validate req).
Proof.
  unfold UserHandler_CreateUser. split_and!.
  - intros req -> Hval. rewrite Hval. cbn [List.length].
    rewrite bool_decide_eq_false_2 by lia. cbn [fst].
    split_and!.
    + done.
    + unfold GetUser, AddUser. cbn [users ID]. apply lookup_insert_eq.
    + intros idStr Hparse. unfold UserHandler_GetUser. rewrite Hparse.
      cbn [negb]. unfold GetUser, AddUser. cbn [users ID].
      by rewrite lookup_insert_eq.
  - intros [->|(req & -> & Hval)].
    + destruct (writeError_fields StatusUnprocessableEntity
                  ["invalid JSON in request body"]) as (Hst & Herr & _).
      cbn [fst snd]. rewrite Hst, Herr. done.
    + destruct (CreateUserRequest.Validate req) as [|msg msgs] eqn:Hv; [done|].
      cbn [List.length]. rewrite bool_decide_eq_true_2 by lia. cbn [fst snd].
      destruct (writeError_fields StatusUnprocessableEntity (msg :: msgs))
        as (Hst & Herr & _).
      rewrite Hst, Herr. done.
  - intros req -> Hval.
    destruct (CreateUserRequest.Validate req) as [|msg msgs] eqn:Hv; [done|].
    cbn [List.length]. rewrite bool_decide_eq_true_2 by lia. cbn [fst snd].
    destruct (writeError_fields StatusUnprocessableEntity (msg :: msgs))
      as (_ & Herr & _).
    rewrite Herr, <- list_fmap_compose. apply list_fmap_id.
Qed.

(** The error of a call that breaks one of the three rules has one of the
    two kinds of the service. *)
Lemma ProcessSwipe_Err_kind
    (s : InMemoryStore) (A B : N) (action : string) (tSwipe tMatch : Z) :
  A = B ∨ users s !! A = None ∨ users s !! B = None →
  ∃ e, ProcessSwipe s A B action tSwipe tMatch = (s, Err e) ∧
       ((A = B ∧ e = ValidationError "cannot swipe on yourself") ∨
        (A ≠ B ∧ asNotFoundError e = true)).
Proof.
  intros Hbad. unfold ProcessSwipe, GetUser.
  case_bool_decide as Heq; [eexists; split; [done|by left]|].
  destruct (users s !! A) eqn:HA; [|eexists; split; [done|by right]].
  destruct (users s !! B) eqn:HB; [|eexists; split; [done|by right]].
  destruct Hbad as [?|[?|?]]; done.
Qed.

(** X24. The swipe handler never answers 500: its status is 201, 400, 404
    or 422. Only a 201 changes the store, and it adds one swipe to the log
    and leaves the users as they were. *)
Theorem SwipeHandler_CreateSwipe_statuses
    (Parse : string → N * bool) (s : InMemoryStore)
    (decoded : option CreateSwipeRequest.t) (tSwipe tMatch : Z) :
  (status (SwipeHandler_CreateSwipe Parse s decoded tSwipe tMatch).2 = 201%Z ∨
   status (SwipeHandler_CreateSwipe Parse s decoded tSwipe tMatch).2 = 400%Z ∨
   status (SwipeHandler_CreateSwipe Parse s decoded tSwipe tMatch).2 = 404%Z ∨
   status (SwipeHandler_CreateSwipe Parse s decoded tSwipe tMatch).2 = 422%Z) ∧
  status (SwipeHandler_CreateSwipe Parse s decoded tSwipe tMatch).2 ≠ 500%Z ∧
  (status (SwipeHandler_CreateSwipe Parse s decoded tSwipe tMatch).2 ≠ 201%Z →
   (SwipeHandler_CreateSwipe Parse s decoded tSwipe tMatch).1 = s) ∧
  (status (SwipeHandler_CreateSwipe Parse s decoded tSwipe tMatch).2 = 201%Z →
   users (SwipeHandler_CreateSwipe Parse s decoded tSwipe tMatch).1 = users s ∧
   ∃ sw, swipes (SwipeHandler_CreateSwipe Parse s decoded tSwipe tMatch).1 =
         swipes s ++ [sw]).
Proof.
  unfold SwipeHandler_CreateSwipe, writeError, writeSuccess.
  destruct decoded as [req|]; [|cbn [fst snd status]; solve_status].
  destruct (CreateSwipeRequest.Validate Parse req) as [[[a b] act] errs].
  case_bool_decide; [cbn [fst snd status]; solve_status|].
  destruct (ProcessSwipe_cases s a b act tSwipe tMatch) as [Hbad|(Hne & HA & HB)].
  - destruct (ProcessSwipe_Err_kind s a b act tSwipe tMatch Hbad)
      as (e & -> & [[_ ->]|[_ He]]).
    + cbn [asNotFoundError asValidationError fst snd status]. solve_status.
    + rewrite He. cbn [fst snd status]. solve_status.
  - rewrite ProcessSwipe_valid by done. cbv zeta.
    destruct (_ && _); cbn [fst snd status users swipes]; solve_status.
Qed.

(** X25. For a request whose identifiers parse to [A] and [B] and whose
    action is recognised, the swipe handler answers 400 exactly for a
    self-swipe, 404 exactly when the two differ and one is not registered,
    and 201 exactly when [ProcessSwipe] succeeds; a 201 carries the swipe,
    the match flag and the match of the result, and an error answer carries
    the text of the service's error and leaves the store as it was. *)
Theorem SwipeHandler_CreateSwipe_spec
    (Parse : string → N * bool) (s : InMemoryStore) (req : CreateSwipeRequest.t)
    (A B : N) (tSwipe tMatch : Z) :
  Parse (CreateSwipeRequest.SwiperID req) = (A, true) →
  Parse (CreateSwipeRequest.SwipedID req) = (B, true) →
  IsValid (CreateSwipeRequest.Action req) = true →
  (status (SwipeHandler_CreateSwipe Parse s (Some req) tSwipe tMatch).2 = 400%Z ↔ A = B) ∧
  (status (SwipeHandler_CreateSwipe Parse s (Some req) tSwipe tMatch).2 = 404%Z ↔
   A ≠ B ∧ (users s !! A = None ∨ users s !! B = None)) ∧
  (status (SwipeHandler_CreateSwipe Parse s (Some req) tSwipe tMatch).2 = 201%Z ↔
   A ≠ B ∧ is_Some (users s !! A) ∧ is_Some (users s !! B)) ∧
  (status (SwipeHandler_CreateSwipe Parse s (Some req) tSwipe tMatch).2 = 201%Z →
   ∃ r, ProcessSwipe s A B (CreateSwipeRequest.Action req) tSwipe tMatch =
          ((SwipeHandler_CreateSwipe Parse s (Some req) tSwipe tMatch).1, Ok r) ∧
        body (SwipeHandler_CreateSwipe Parse s (Some req) tSwipe tMatch).2 =
          mkAPIResponse (DataSwipe (ResSwipe r) (Matched r) (ResMatch r)) ∅ []) ∧
  (status (SwipeHandler_CreateSwipe Parse s (Some req) tSwipe tMatch).2 ≠ 201%Z →
   ∃ e, ProcessSwipe s A B (CreateSwipeRequest.Action req) tSwipe tMatch = (s, Err e) ∧
        (SwipeHandler_CreateSwipe Parse s (Some req) tSwipe tMatch).1 = s ∧
        Message <$> Errors (body (SwipeHandler_CreateSwipe Parse s (Some req)
                                    tSwipe tMatch).2) = [Error e]).
Proof.
  intros HpA HpB Hvalid.
  unfold SwipeHandler_CreateSwipe, CreateSwipeRequest.Validate.
  rewrite HpA, HpB, Hvalid. cbn [app List.length].
  rewrite bool_decide_eq_false_2 by lia.
  destruct (ProcessSwipe_cases s A B (CreateSwipeRequest.Action req) tSwipe tMatch)
    as [Hbad|(Hne & HA & HB)].
  - destruct (ProcessSwipe_Err_kind s A B (CreateSwipeRequest.Action req)
                tSwipe tMatch Hbad) as (e & -> & [[Heq ->]|[Hne He]]).
    + cbn [asNotFoundError asValidationError fst snd Error].
      destruct (writeError_fields StatusBadRequest ["cannot swipe on yourself"])
        as (-> & -> & _).
      split_and!; try solve_status.
    + rewrite He. cbn [fst snd].
      destruct (writeError_fields StatusNotFound [Error e]) as (-> & -> & _).
      assert (Hunk : users s !! A = None ∨ users s !! B = None)
        by (destruct Hbad as [?|?]; done).
      split_and!; try solve_status.
  - rewrite ProcessSwipe_valid by done. cbv zeta.
    destruct (_ && _); unfold writeSuccess, NewSuccessResponse;
      cbn [fst snd status body];
      (split_and!; try solve_status).
Qed.

Lemma SwipeHandler_CreateSwipe_spec_witness :
  status (SwipeHandler_CreateSwipe sample_Parse three_users
            (Some (CreateSwipeRequest.mk (UUID_String 1) (UUID_String 2) "LIKE"))
            10 11).2 = 201%Z ∧
  status (SwipeHandler_CreateSwipe sample_Parse three_users
            (Some (CreateSwipeRequest.mk (UUID_String 1) (UUID_String 1) "PASS"))
            10 11).2 = 400%Z.
Proof.
  split.
  - apply (SwipeHandler_CreateSwipe_spec sample_Parse three_users
             (CreateSwipeRequest.mk (UUID_String 1) (UUID_String 2) "LIKE") 1 2 10 11).
    + vm_compute. reflexivity.
    + vm_compute. reflexivity.
    + vm_compute. reflexivity.
    + split_and!; [discriminate|exists alice|exists bob]; vm_compute; reflexivity.
  - apply (SwipeHandler_CreateSwipe_spec sample_Parse three_users
             (CreateSwipeRequest.mk (UUID_String 1) (UUID_String 1) "PASS") 1 1 10 11).
    + vm_compute. reflexivity.
    + vm_compute. reflexivity.
    + vm_compute. reflexivity.
    + reflexivity.
Defined.

Lemma envelope_ok_writeError (st : Z) (messages : list string) :
  (400 ≤ st)%Z → messages ≠ [] → envelope_ok (writeError st messages).
Proof.
  intros Hst Hmsg. right.
  destruct (writeError_fields st messages) as (-> & -> & -> & ->).
  split_and!; try done. by destruct messages.
Qed.

Lemma envelope_ok_writeSuccess (st : Z) (data : payload) (meta : option (gmap string Z)) :
  (st < 400)%Z → data ≠ DataNil → envelope_ok (writeSuccess st data meta).
Proof. intros Hst Hdata. left. done. Qed.

Lemma length_pos_not_nil {A : Type} (l : list A) : 0 < List.length l → l ≠ [].
Proof. destruct l; simpl; [lia|done]. Qed.

(** X26. Every answer of the five handlers has one of the two shapes of the
    envelope: a status below 400 with data and no error, or a status of 400
    or more with at least one error message, nil data and empty
    metadata. *)
Theorem handlers_envelope_ok
    (Parse : string → N * bool) (s : InMemoryStore) (str : string)
    (user_body : option CreateUserRequest.t) (newID : N)
    (swipe_body : option CreateSwipeRequest.t) (tSwipe tMatch : Z) :
  envelope_ok (FeedHandler_GetFeed Parse s str) ∧
  envelope_ok (SwipeHandler_GetMatches Parse s str) ∧
  envelope_ok (UserHandler_GetUser Parse s str) ∧
  envelope_ok (UserHandler_CreateUser s user_body newID).2 ∧
  envelope_ok (SwipeHandler_CreateSwipe Parse s swipe_body tSwipe tMatch).2.
Proof.
  split_and!.
  - unfold FeedHandler_GetFeed. case_bool_decide.
    { by apply envelope_ok_writeError. }
    destruct (Parse str) as [userID ok]. destruct ok; cbn [negb].
    2:{ by apply envelope_ok_writeError. }
    destruct (GetFeed s userID).
    + by apply envelope_ok_writeSuccess.
    + by apply envelope_ok_writeError.
  - unfold SwipeHandler_GetMatches. case_bool_decide.
    { by apply envelope_ok_writeError. }
    destruct (Parse str) as [userID ok]. destruct ok; cbn [negb].
    2:{ by apply envelope_ok_writeError. }
    destruct (GetUser s userID).
    + by apply envelope_ok_writeSuccess.
    + by apply envelope_ok_writeError.
  - unfold UserHandler_GetUser.
    destruct (Parse str) as [userID ok]. destruct ok; cbn [negb].
    2:{ by apply envelope_ok_writeError. }
    destruct (GetUser s userID).
    + by apply envelope_ok_writeSuccess.
    + by apply envelope_ok_writeError.
  - unfold UserHandler_CreateUser. destruct user_body as [req|]; cbn [snd].
    2:{ by apply envelope_ok_writeError. }
    case_bool_decide; cbn [snd].
    + apply envelope_ok_writeError; [done|]. by apply length_pos_not_nil.
    + by apply envelope_ok_writeSuccess.
  - unfold SwipeHandler_CreateSwipe. destruct swipe_body as [req|]; cbn [snd].
    2:{ by apply envelope_ok_writeError. }
    destruct (CreateSwipeRequest.Validate Parse req) as [[[a b] act] errs].
    case_bool_decide; cbn [snd].
    { apply envelope_ok_writeError; [done|]. by apply length_pos_not_nil. }
    destruct (ProcessSwipe s a b act tSwipe tMatch) as [s' [r|e]]; cbn [snd].
    + by apply envelope_ok_writeSuccess.
    + destruct (asNotFoundError e); [by apply envelope_ok_writeError|].
      destruct (asValidationError e); by apply envelope_ok_writeError.
Qed.
